(** * Document extraction pipeline of the toll management API

    A shallow embedding of [src/extractText.ts] (the module the upload
    server imports) and of its older image-only duplicate, together with
    the platform functions they call: JavaScript strings, Node's
    [path.extname], [Buffer.toString("base64")], [JSON.parse], property
    lookup on object literals, the file system, [https.get] and the model
    provider's [messages.create]. *)

From Stdlib Require Import NArith ZArith List Bool.
From Stdlib Require Import Strings.String Strings.Ascii Strings.Byte.
From Stdlib Require Import Lia.
Import ListNotations.

Open Scope N_scope.

(** ** JavaScript strings

    A JavaScript string is a sequence of 16-bit code units. *)

Module Js.

Definition char16 := N.
Definition jsstring := list char16.

(** A string literal of the source.  Source literals hold double quotes that
    a literal here cannot; an apostrophe stands for one. *)
Definition u16char (a : ascii) : char16 :=
  if Ascii.eqb a "'"%char then 34%N else N_of_ascii a.

Definition u16 (s : string) : jsstring := map u16char (list_ascii_of_string s).

(** [a === b] on strings. *)
Fixpoint streq (a b : jsstring) : bool :=
  match a, b with
  | [], [] => true
  | x :: a', y :: b' => N.eqb x y && streq a' b'
  | _, _ => false
  end.

(** [String.prototype.toLowerCase]: the Basic Latin and Latin-1 capitals,
    and the two code units outside Latin-1 whose lower case reaches into
    Basic Latin (KELVIN SIGN, and CAPITAL I WITH DOT ABOVE which becomes
    two code units).  Other code units are kept, so the result equals a
    given Basic Latin string exactly when JavaScript's does. *)
Definition lowerChar (c : char16) : jsstring :=
  if (65 <=? c) && (c <=? 90) then [c + 32]
  else if (192 <=? c) && (c <=? 222) && negb (c =? 215) then [c + 32]
  else if c =? 8490 then [107]
  else if c =? 304 then [105; 775]
  else [c].

Definition toLowerCase (s : jsstring) : jsstring := flat_map lowerChar s.

(** WhiteSpace and LineTerminator code points, the set [trim] strips. *)
Definition isWhiteSpace (c : char16) : bool :=
  (c =? 9) || (c =? 10) || (c =? 11) || (c =? 12) || (c =? 13) || (c =? 32)
  || (c =? 160) || (c =? 5760) || ((8192 <=? c) && (c <=? 8202))
  || (c =? 8232) || (c =? 8233) || (c =? 8239) || (c =? 8287)
  || (c =? 12288) || (c =? 65279).

Fixpoint trimStart (s : jsstring) : jsstring :=
  match s with
  | [] => []
  | c :: s' => if isWhiteSpace c then trimStart s' else s
  end.

Fixpoint trimEnd (s : jsstring) : jsstring :=
  match s with
  | [] => []
  | c :: s' =>
      match trimEnd s' with
      | [] => if isWhiteSpace c then [] else [c]
      | r => c :: r
      end
  end.

Definition trim (s : jsstring) : jsstring := trimEnd (trimStart s).

(** [s.split(sep)[0]] for a one-character separator: the text before the
    first separator, the whole string when there is none. *)
Fixpoint splitHead (sep : char16) (s : jsstring) : jsstring :=
  match s with
  | [] => []
  | c :: s' => if c =? sep then [] else c :: splitHead sep s'
  end.

(** [arr.join(sep)] on an array of strings. *)
Fixpoint join (sep : jsstring) (parts : list jsstring) : jsstring :=
  match parts with
  | [] => []
  | [p] => p
  | p :: rest => p ++ sep ++ join sep rest
  end.

(** [s.slice(from, to)] with both indices inside the string. *)
Definition slice (s : jsstring) (from to : nat) : jsstring :=
  firstn (to - from) (skipn from s).

(** *** Regular expressions

    The fragment the module uses: a sequence of atoms, each a literal
    character or a greedy starred character class, matched by backtracking
    at the leftmost position that succeeds. *)

Inductive atom :=
| Lit (c : char16)
| StarClass (p : char16 -> bool).

Fixpoint matchHere (pat : list atom) (s : jsstring) : option jsstring :=
  match pat with
  | [] => Some []
  | Lit c :: pat' =>
      match s with
      | x :: s' =>
          if x =? c then option_map (cons x) (matchHere pat' s') else None
      | [] => None
      end
  | StarClass p :: pat' =>
      (fix star (s : jsstring) : option jsstring :=
         match s with
         | x :: s' =>
             if p x then
               match star s' with
               | Some m => Some (x :: m)
               | None => matchHere pat' s
               end
             else matchHere pat' s
         | [] => matchHere pat' s
         end) s
  end.

(** [s.match(re)] for a pattern without the global flag: element [0] of
    the match, [None] for [null]. *)
Fixpoint regexMatch (pat : list atom) (s : jsstring) : option jsstring :=
  match matchHere pat s with
  | Some m => Some m
  | None =>
      match s with
      | [] => None
      | _ :: s' => regexMatch pat s'
      end
  end.

(** [[\s\S]]: white space or not white space. *)
Definition anyChar (c : char16) : bool := isWhiteSpace c || negb (isWhiteSpace c).

End Js.

Import Js.

(** ** Node's [path.extname] (POSIX) *)

Module Path.

Record scan := {
  startDot : Z;
  startPart : Z;
  end_ : Z;
  matchedSlash : bool;
  preDotState : Z
}.

Definition scan0 : scan :=
  {| startDot := -1; startPart := 0; end_ := -1;
     matchedSlash := true; preDotState := 0 |}.

(** The backwards loop [for (i = path.length - 1; i >= 0; --i)]; [rpath]
    holds [path[i], path[i-1], ..., path[0]]. *)
Fixpoint extnameLoop (rpath : jsstring) (i : Z) (st : scan) : scan :=
  match rpath with
  | [] => st
  | char :: rest =>
      if (char =? 47)%N then
        if negb (matchedSlash st) then
          {| startDot := startDot st; startPart := i + 1; end_ := end_ st;
             matchedSlash := matchedSlash st; preDotState := preDotState st |}
        else extnameLoop rest (i - 1) st
      else
        let st1 :=
          if (end_ st =? -1)%Z then
            {| startDot := startDot st; startPart := startPart st;
               end_ := i + 1; matchedSlash := false;
               preDotState := preDotState st |}
          else st in
        let st2 :=
          if (char =? 46)%N then
            if (startDot st1 =? -1)%Z then
              {| startDot := i; startPart := startPart st1; end_ := end_ st1;
                 matchedSlash := matchedSlash st1;
                 preDotState := preDotState st1 |}
            else if negb (preDotState st1 =? 1)%Z then
              {| startDot := startDot st1; startPart := startPart st1;
                 end_ := end_ st1; matchedSlash := matchedSlash st1;
                 preDotState := 1 |}
            else st1
          else if negb (startDot st1 =? -1)%Z then
            {| startDot := startDot st1; startPart := startPart st1;
               end_ := end_ st1; matchedSlash := matchedSlash st1;
               preDotState := -1 |}
          else st1 in
        extnameLoop rest (i - 1) st2
  end.

Definition extname (path : jsstring) : jsstring :=
  let st := extnameLoop (rev path) (Z.of_nat (List.length path) - 1) scan0 in
  if (startDot st =? -1)%Z
     || (end_ st =? -1)%Z
     || (preDotState st =? 0)%Z
     || ((preDotState st =? 1)%Z
         && (startDot st =? end_ st - 1)%Z
         && (startDot st =? startPart st + 1)%Z)
  then []
  else slice path (Z.to_nat (startDot st)) (Z.to_nat (end_ st)).

End Path.

(** ** [Buffer.toString("base64")] *)

Module Base64.

Definition alphabet : jsstring :=
  u16 "ABCDEFGHIJKLMNOPQRSTUVWXYZabcdefghijklmnopqrstuvwxyz0123456789+/".

Definition digit (n : N) : char16 := nth (N.to_nat n) alphabet 61%N.

Definition pad : char16 := 61%N.

Fixpoint encode (bs : list byte) : jsstring :=
  match bs with
  | [] => []
  | [a] =>
      let x := Byte.to_N a in
      [digit (N.shiftr x 2); digit (N.shiftl (N.land x 3) 4); pad; pad]
  | [a; b] =>
      let x := Byte.to_N a in
      let y := Byte.to_N b in
      [digit (N.shiftr x 2);
       digit (N.lor (N.shiftl (N.land x 3) 4) (N.shiftr y 4));
       digit (N.shiftl (N.land y 15) 2); pad]
  | a :: b :: c :: rest =>
      let x := Byte.to_N a in
      let y := Byte.to_N b in
      let z := Byte.to_N c in
      digit (N.shiftr x 2)
      :: digit (N.lor (N.shiftl (N.land x 3) 4) (N.shiftr y 4))
      :: digit (N.lor (N.shiftl (N.land y 15) 2) (N.shiftr z 6))
      :: digit (N.land z 63)
      :: encode rest
  end.

End Base64.

(** ** Errors and settled promises *)

Inductive JsError := MkError (name message : jsstring).

(** How an [await]ed promise settles, or how a call returns or throws. *)
Inductive Outcome (A : Type) :=
| Resolved (a : A)
| Rejected (e : JsError).

Arguments Resolved {A} a.
Arguments Rejected {A} e.

(** ** [JSON.parse] *)

Module JSON.

(** A parsed value.  A number keeps the characters it was written with;
    an object lists its properties in the order they were defined. *)
#[warnings="-register-all"]
Inductive value :=
| JNull
| JBool (b : bool)
| JNumber (lexeme : jsstring)
| JString (s : jsstring)
| JArray (elements : list value)
| JObject (properties : list (jsstring * value)).

(** Defining a property: an existing key keeps its place and takes the new
    value, a new key goes last. *)
Fixpoint setProp (props : list (jsstring * value)) (key : jsstring) (v : value)
  : list (jsstring * value) :=
  match props with
  | [] => [(key, v)]
  | (k, w) :: rest =>
      if streq k key then (k, v) :: rest else (k, w) :: setProp rest key v
  end.

Definition keys (v : value) : list jsstring :=
  match v with
  | JObject props => map fst props
  | _ => []
  end.

Definition isWs (c : char16) : bool :=
  (c =? 9) || (c =? 10) || (c =? 13) || (c =? 32).

Fixpoint skipWs (s : jsstring) : jsstring :=
  match s with
  | c :: s' => if isWs c then skipWs s' else s
  | [] => []
  end.

Definition isDigit (c : char16) : bool := (48 <=? c) && (c <=? 57).

Definition hexVal (c : char16) : option N :=
  if isDigit c then Some (c - 48)
  else if (65 <=? c) && (c <=? 70) then Some (c - 55)
  else if (97 <=? c) && (c <=? 102) then Some (c - 87)
  else None.

Definition hex4 (a b c d : char16) : option char16 :=
  match hexVal a, hexVal b, hexVal c, hexVal d with
  | Some x, Some y, Some z, Some w => Some (((x * 16 + y) * 16 + z) * 16 + w)
  | _, _, _, _ => None
  end.

Definition escape (e : char16) : option char16 :=
  if e =? 34 then Some 34
  else if e =? 92 then Some 92
  else if e =? 47 then Some 47
  else if e =? 98 then Some 8
  else if e =? 102 then Some 12
  else if e =? 110 then Some 10
  else if e =? 114 then Some 13
  else if e =? 116 then Some 9
  else None.

(** The characters of a string after its opening quote, up to and
    including the closing quote. *)
Fixpoint parseChars (s : jsstring) : option (jsstring * jsstring) :=
  match s with
  | [] => None
  | c :: s' =>
      if c =? 34 then Some ([], s')
      else if c =? 92 then
        match s' with
        | [] => None
        | e :: s'' =>
            if e =? 117 then
              match s'' with
              | h1 :: h2 :: h3 :: h4 :: s3 =>
                  match hex4 h1 h2 h3 h4, parseChars s3 with
                  | Some u, Some (str, rest) => Some (u :: str, rest)
                  | _, _ => None
                  end
              | _ => None
              end
            else
              match escape e, parseChars s'' with
              | Some u, Some (str, rest) => Some (u :: str, rest)
              | _, _ => None
              end
        end
      else if c <? 32 then None
      else
        match parseChars s' with
        | Some (str, rest) => Some (c :: str, rest)
        | None => None
        end
  end.

Fixpoint span (p : char16 -> bool) (s : jsstring) : jsstring * jsstring :=
  match s with
  | c :: s' => if p c then let (a, b) := span p s' in (c :: a, b) else ([], s)
  | [] => ([], [])
  end.

Definition parseInt (s : jsstring) : option (jsstring * jsstring) :=
  match s with
  | c :: s' =>
      if c =? 48 then Some ([c], s')
      else if isDigit c then let (ds, rest) := span isDigit s' in Some (c :: ds, rest)
      else None
  | [] => None
  end.

Definition parseFrac (s : jsstring) : option (jsstring * jsstring) :=
  match s with
  | c :: s' =>
      if c =? 46 then
        match span isDigit s' with
        | ([], _) => None
        | (ds, rest) => Some (c :: ds, rest)
        end
      else Some ([], s)
  | [] => Some ([], s)
  end.

Definition parseExp (s : jsstring) : option (jsstring * jsstring) :=
  match s with
  | c :: s' =>
      if (c =? 101) || (c =? 69) then
        let (sign, s'') :=
          match s' with
          | g :: t => if (g =? 43) || (g =? 45) then ([g], t) else ([], s')
          | [] => ([], s')
          end in
        match span isDigit s'' with
        | ([], _) => None
        | (ds, rest) => Some (c :: sign ++ ds, rest)
        end
      else Some ([], s)
  | [] => Some ([], s)
  end.

Definition parseNumber (s : jsstring) : option (jsstring * jsstring) :=
  let (minus, s1) :=
    match s with
    | c :: s' => if c =? 45 then ([c], s') else ([], s)
    | [] => ([], s)
    end in
  match parseInt s1 with
  | None => None
  | Some (int, s2) =>
      match parseFrac s2 with
      | None => None
      | Some (frac, s3) =>
          match parseExp s3 with
          | None => None
          | Some (exp, s4) => Some (minus ++ int ++ frac ++ exp, s4)
          end
      end
  end.

(** [s] starts with the characters of [word]; the rest of [s]. *)
Fixpoint stripPrefix (word s : jsstring) : option jsstring :=
  match word, s with
  | [], _ => Some s
  | w :: word', c :: s' => if c =? w then stripPrefix word' s' else None
  | _ :: _, [] => None
  end.

(** Recursive descent; every call that recurses has consumed a character,
    so the length of the text bounds the depth. *)
Fixpoint parseValue (fuel : nat) (s : jsstring) : option (value * jsstring) :=
  match fuel with
  | O => None
  | S fuel' =>
      match skipWs s with
      | [] => None
      | c :: r =>
          if c =? 123 then
            match skipWs r with
            | c2 :: r2 =>
                if c2 =? 125 then Some (JObject [], r2)
                else parseMembers fuel' (skipWs r) []
            | [] => None
            end
          else if c =? 91 then
            match skipWs r with
            | c2 :: r2 =>
                if c2 =? 93 then Some (JArray [], r2)
                else parseElements fuel' r []
            | [] => None
            end
          else if c =? 34 then
            match parseChars r with
            | Some (str, rest) => Some (JString str, rest)
            | None => None
            end
          else
            match stripPrefix (u16 "true") (c :: r) with
            | Some rest => Some (JBool true, rest)
            | None =>
            match stripPrefix (u16 "false") (c :: r) with
            | Some rest => Some (JBool false, rest)
            | None =>
            match stripPrefix (u16 "null") (c :: r) with
            | Some rest => Some (JNull, rest)
            | None =>
            match parseNumber (c :: r) with
            | Some (lexeme, rest) => Some (JNumber lexeme, rest)
            | None => None
            end end end end
      end
  end
with parseMembers (fuel : nat) (s : jsstring) (acc : list (jsstring * value))
  : option (value * jsstring) :=
  match fuel with
  | O => None
  | S fuel' =>
      match s with
      | q :: r =>
          if q =? 34 then
            match parseChars r with
            | Some (key, r1) =>
                match skipWs r1 with
                | colon :: r2 =>
                    if colon =? 58 then
                      match parseValue fuel' r2 with
                      | Some (v, r3) =>
                          match skipWs r3 with
                          | d :: r4 =>
                              if d =? 44 then
                                parseMembers fuel' (skipWs r4) (setProp acc key v)
                              else if d =? 125 then
                                Some (JObject (setProp acc key v), r4)
                              else None
                          | [] => None
                          end
                      | None => None
                      end
                    else None
                | [] => None
                end
            | None => None
            end
          else None
      | [] => None
      end
  end
with parseElements (fuel : nat) (s : jsstring) (acc : list value)
  : option (value * jsstring) :=
  match fuel with
  | O => None
  | S fuel' =>
      match parseValue fuel' s with
      | Some (v, r) =>
          match skipWs r with
          | d :: r' =>
              if d =? 44 then parseElements fuel' r' (acc ++ [v])
              else if d =? 93 then Some (JArray (acc ++ [v]), r')
              else None
          | [] => None
          end
      | None => None
      end
  end.

Definition syntaxError : JsError :=
  MkError (u16 "SyntaxError") (u16 "Unexpected token in JSON").

(** [JSON.parse(text)]: the value, or the [SyntaxError] thrown. *)
Definition parse (text : jsstring) : Outcome value :=
  match parseValue (2 * List.length text + 2) text with
  | Some (v, rest) =>
      match skipWs rest with
      | [] => Resolved v
      | _ :: _ => Rejected syntaxError
      end
  | None => Rejected syntaxError
  end.

End JSON.

(** ** Property lookup on an object literal

    [obj[key]] looks among the literal's own properties and then on
    [Object.prototype], which every object literal inherits from. *)

Module Obj.

Inductive jsval :=
| VUndefined
| VString (s : jsstring)
| VNativeFunction (name : jsstring)
| VObjectPrototype.

Fixpoint assoc {A : Type} (props : list (jsstring * A)) (key : jsstring)
  : option A :=
  match props with
  | [] => None
  | (k, v) :: rest => if streq k key then Some v else assoc rest key
  end.

Definition prototypeMethods : list jsstring :=
  [u16 "__defineGetter__"; u16 "__defineSetter__"; u16 "hasOwnProperty";
   u16 "__lookupGetter__"; u16 "__lookupSetter__"; u16 "isPrototypeOf";
   u16 "propertyIsEnumerable"; u16 "toString"; u16 "valueOf";
   u16 "toLocaleString"].

(** The properties of [Object.prototype], seen from an object literal:
    [constructor] is the function [Object], [__proto__] is an accessor
    that yields the literal's prototype. *)
Definition objectPrototypeGet (key : jsstring) : jsval :=
  if streq key (u16 "constructor") then VNativeFunction (u16 "Object")
  else if existsb (streq key) prototypeMethods then VNativeFunction key
  else if streq key (u16 "__proto__") then VObjectPrototype
  else VUndefined.

Definition get (own : list (jsstring * jsval)) (key : jsstring) : jsval :=
  match assoc own key with
  | Some v => v
  | None => objectPrototypeGet key
  end.

Definition truthy (v : jsval) : bool :=
  match v with
  | VUndefined => false
  | VString [] => false
  | VString (_ :: _) => true
  | VNativeFunction _ => true
  | VObjectPrototype => true
  end.

(** [a || b] *)
Definition or (a b : jsval) : jsval := if truthy a then a else b.

(** What [Array.prototype.join] writes for an element. *)
Definition joinItem (v : jsval) : jsstring :=
  match v with
  | VUndefined => []
  | VString s => s
  | VNativeFunction name => u16 "function " ++ name ++ u16 "() { [native code] }"
  | VObjectPrototype => u16 "[object Object]"
  end.

Definition joinValues (sep : jsstring) (items : list jsval) : jsstring :=
  join sep (map joinItem items).

End Obj.

(** ** The model provider's client *)

Module Sdk.

Record Base64Source := {
  source_type : jsstring;
  media_type : jsstring;
  data : jsstring
}.

(** A content block of a request, as the object literal the code writes:
    [{ type, source }] or [{ type, text }]. *)
Record ContentBlockParam := {
  type : jsstring;
  source : option Base64Source;
  text : option jsstring
}.

Record MessageParam := {
  role : jsstring;
  content : list ContentBlockParam
}.

Record MessageCreateParams := {
  model : jsstring;
  max_tokens : N;
  messages : list MessageParam
}.

(** A content block of a reply, a union discriminated by [type]. *)
Inductive ContentBlock :=
| TextBlock (text : jsstring)
| ThinkingBlock (thinking signature : jsstring)
| RedactedThinkingBlock (data : jsstring)
| ToolUseBlock (id name : jsstring)
| ServerToolUseBlock (id name : jsstring)
| WebSearchToolResultBlock (tool_use_id : jsstring).

Definition blockType (block : ContentBlock) : jsstring :=
  match block with
  | TextBlock _ => u16 "text"
  | ThinkingBlock _ _ => u16 "thinking"
  | RedactedThinkingBlock _ => u16 "redacted_thinking"
  | ToolUseBlock _ _ => u16 "tool_use"
  | ServerToolUseBlock _ _ => u16 "server_tool_use"
  | WebSearchToolResultBlock _ => u16 "web_search_tool_result"
  end.

End Sdk.

Module Message.
Record t := { content : list Sdk.ContentBlock }.
End Message.

(** ** The world outside the module *)

Inductive FsEntry :=
| RegularFile (bytes : list byte)
| Unreadable (e : JsError).

(** A response of [https.get]: its headers (names in lower case), the
    chunks of its ["data"] events, and the error of its ["error"] event
    when the stream fails instead of ending. *)
Record IncomingMessage := {
  headers : list (jsstring * jsstring);
  chunks : list (list byte);
  failure : option JsError
}.

Inductive HttpsResult :=
| RequestError (e : JsError)
| Response (response : IncomingMessage).

Record Env := {
  fs : jsstring -> option FsEntry;
  https_get : jsstring -> HttpsResult;
  messages_create : Sdk.MessageCreateParams -> Outcome Message.t
}.

(** What a run leaves behind: the requests sent to the model provider and
    the lines written by [console.error], oldest first. *)
Record State := {
  requests : list Sdk.MessageCreateParams;
  console : list (jsstring * JsError)
}.

Definition State0 : State := {| requests := []; console := [] |}.

(** An [async] function: it settles with a value or an error and leaves a
    state. *)
Definition Async (A : Type) : Type := State -> Outcome A * State.

Definition ret {A : Type} (a : A) : Async A := fun st => (Resolved a, st).

Definition throw {A : Type} (e : JsError) : Async A := fun st => (Rejected e, st).

Definition bind {A B : Type} (m : Async A) (k : A -> Async B) : Async B :=
  fun st =>
    match m st with
    | (Resolved a, st') => k a st'
    | (Rejected e, st') => (Rejected e, st')
    end.

Definition tryCatch {A : Type} (body : Async A) (handler : JsError -> Async A)
  : Async A :=
  fun st =>
    match body st with
    | (Resolved a, st') => (Resolved a, st')
    | (Rejected e, st') => handler e st'
    end.

(** A call that returns or throws. *)
Definition lift {A : Type} (o : Outcome A) : Async A := fun st => (o, st).

Notation "x <- m ;; k" := (bind m (fun x => k))
  (at level 61, m at next level, right associativity).

Definition existsSync (env : Env) (path : jsstring) : bool :=
  match fs env path with
  | Some _ => true
  | None => false
  end.

Definition readFileSync (env : Env) (path : jsstring) : Outcome (list byte) :=
  match fs env path with
  | Some (RegularFile bytes) => Resolved bytes
  | Some (Unreadable e) => Rejected e
  | None => Rejected (MkError (u16 "Error") (u16 "ENOENT: no such file or directory"))
  end.

Definition client_messages_create (env : Env) (params : Sdk.MessageCreateParams)
  : Async Message.t :=
  fun st =>
    (messages_create env params,
     {| requests := requests st ++ [params]; console := console st |}).

Definition console_error (line : jsstring) (error : JsError) : Async unit :=
  fun st =>
    (Resolved tt,
     {| requests := requests st; console := console st ++ [(line, error)] |}).

(** [arr.push(x)] *)
Definition push {A : Type} (arr : list A) (x : A) : list A := arr ++ [x].

(** The [{ data, mediaType }] object [fetchFileAsBase64] resolves with. *)
Record Resource := {
  data : jsstring;
  mediaType : jsstring
}.

(** The pattern [/\{[\s\S]*\}/]. *)
Definition jsonPattern : list atom := [Lit 123; StarClass anyChar; Lit 125].

Definition emptyObject : JSON.value := JSON.JObject [].

Definition defaultFields : list jsstring :=
  [u16 "invoiceNumber"; u16 "licensePlate"; u16 "amountDue"; u16 "dueDate"].

(** The lines of a template literal. *)
Definition lines (ls : list jsstring) : jsstring := join [10] ls.

(** The object literals of a request and the predicate of [find]. *)

Definition base64Source (mediaType base64Data : jsstring) : Sdk.Base64Source :=
  {| Sdk.source_type := u16 "base64";
     Sdk.media_type := mediaType;
     Sdk.data := base64Data |}.

(** An object literal [{ type, source }]. *)
Definition sourceBlock (type : jsstring) (source : Sdk.Base64Source)
  : Sdk.ContentBlockParam :=
  {| Sdk.type := type; Sdk.source := Some source; Sdk.text := None |}.

Definition textBlock (text : jsstring) : Sdk.ContentBlockParam :=
  {| Sdk.type := u16 "text"; Sdk.source := None; Sdk.text := Some text |}.

Definition isText (block : Sdk.ContentBlock) : bool :=
  streq (Sdk.blockType block) (u16 "text").

(** ** [src/extractText.ts] *)

Module ExtractText.

Definition fetchFileAsBase64 (env : Env) (filePath : jsstring) : Async Resource :=
  if existsSync env filePath then
    fileBuffer <- lift (readFileSync env filePath) ;;
    let base64 := Base64.encode fileBuffer in
    let ext := toLowerCase (Path.extname filePath) in
    let mediaType :=
      if streq ext (u16 ".pdf") then u16 "application/pdf"
      else if streq ext (u16 ".png") then u16 "image/png"
      else if streq ext (u16 ".gif") then u16 "image/gif"
      else if streq ext (u16 ".webp") then u16 "image/webp"
      else u16 "image/jpeg" in
    ret {| data := base64; mediaType := mediaType |}
  else
    match https_get env filePath with
    | RequestError e => throw e
    | Response response =>
        match failure response with
        | Some e => throw e
        | None =>
            let buffer := List.concat (chunks response) in
            let contentType :=
              match Obj.assoc (headers response) (u16 "content-type") with
              | Some ((_ :: _) as v) => v
              | _ => u16 "image/jpeg"
              end in
            ret {| data := Base64.encode buffer;
                   mediaType := splitHead 59 contentType |}
        end
    end.

Definition extractText (env : Env) (filePath : jsstring) : Async jsstring :=
  r <- fetchFileAsBase64 env filePath ;;
  let base64Data := data r in
  let mediaType := mediaType r in
  let messageContent := [] in
  let messageContent :=
    if streq mediaType (u16 "application/pdf") then
      push messageContent
        (sourceBlock (u16 "document") (base64Source mediaType base64Data))
    else
      push messageContent
        (sourceBlock (u16 "image") (base64Source mediaType base64Data)) in
  let messageContent :=
    push messageContent
      (textBlock (u16 "Please extract all text from this document and return it in markdown format.")) in
  response <- client_messages_create env
    {| Sdk.model := u16 "claude-opus-4-1-20250805";
       Sdk.max_tokens := 1024;
       Sdk.messages := [ {| Sdk.role := u16 "user";
                            Sdk.content := messageContent |} ] |} ;;
  let textContent := find isText (Message.content response) in
  match textContent with
  | Some (Sdk.TextBlock text) => ret text
  | _ => ret []
  end.

Definition descriptions : list (jsstring * Obj.jsval) :=
  [ (u16 "invoiceNumber", Obj.VString (u16 "Invoice number or ID"));
    (u16 "licensePlate", Obj.VString (u16 "License plate number or vehicle registration"));
    (u16 "amountDue", Obj.VString (u16 "Amount due (total amount to pay)"));
    (u16 "dueDate", Obj.VString (u16 "Due date for payment"));
    (u16 "company", Obj.VString (u16 "Company or organization name"));
    (u16 "address", Obj.VString (u16 "Address")) ].

(** The arrow function mapped over [fields]: [descriptions[field] || field]. *)
Definition describe (field : jsstring) : Obj.jsval :=
  Obj.or (Obj.get descriptions field) (Obj.VString field).

Definition structuredPrompt (fieldsDescription : jsstring) : jsstring :=
  lines
    [ u16 "Extract the following information from this document and return ONLY a JSON object (no markdown, no extra text): "
        ++ fieldsDescription ++ u16 ".";
      [];
      u16 "Return as JSON like this example:";
      u16 "{";
      u16 "  'invoiceNumber': 'value',";
      u16 "  'licensePlate': 'value',";
      u16 "  'amountDue': 'value',";
      u16 "  'dueDate': 'value'";
      u16 "}";
      [];
      u16 "If a field is not found, use null." ].

(** The [try] block and what follows it: [Some parsed] is [return parsed],
    [None] is leaving the block without a return. *)
Definition recover (text : jsstring) : Async JSON.value :=
  returned <-
    tryCatch
      (let jsonText := trim text in
       let jsonMatch := regexMatch jsonPattern jsonText in
       match jsonMatch with
       | Some m =>
           parsed <- lift (JSON.parse m) ;;
           ret (Some parsed)
       | None => ret None
       end)
      (fun error =>
         _ <- console_error (u16 "Failed to parse structured data:") error ;;
         ret None) ;;
  match returned with
  | Some parsed => ret parsed
  | None => ret emptyObject
  end.

Definition extractStructuredData (env : Env) (filePath : jsstring)
    (fields : option (list jsstring)) : Async JSON.value :=
  let fields := match fields with Some f => f | None => defaultFields end in
  r <- fetchFileAsBase64 env filePath ;;
  let base64Data := data r in
  let mediaType := mediaType r in
  let fieldsDescription := Obj.joinValues (u16 ", ") (map describe fields) in
  let messageContent := [] in
  let messageContent :=
    if streq mediaType (u16 "application/pdf") then
      push messageContent
        (sourceBlock (u16 "document") (base64Source mediaType base64Data))
    else
      push messageContent
        (sourceBlock (u16 "image") (base64Source mediaType base64Data)) in
  let messageContent :=
    push messageContent (textBlock (structuredPrompt fieldsDescription)) in
  response <- client_messages_create env
    {| Sdk.model := u16 "claude-opus-4-1-20250805";
       Sdk.max_tokens := 500;
       Sdk.messages := [ {| Sdk.role := u16 "user";
                            Sdk.content := messageContent |} ] |} ;;
  let textContent := find isText (Message.content response) in
  match textContent with
  | Some (Sdk.TextBlock text) => recover text
  | _ => ret emptyObject
  end.

End ExtractText.

(** ** The older copy of the module ([fetchImageAsBase64])

    It handles images only: no [.pdf] case, no document block, and its
    prompts say "image". *)

Module Part001.

Definition fetchImageAsBase64 (env : Env) (imagePath : jsstring) : Async Resource :=
  if existsSync env imagePath then
    imageBuffer <- lift (readFileSync env imagePath) ;;
    let base64 := Base64.encode imageBuffer in
    let ext := toLowerCase (Path.extname imagePath) in
    let mediaType :=
      if streq ext (u16 ".png") then u16 "image/png"
      else if streq ext (u16 ".gif") then u16 "image/gif"
      else if streq ext (u16 ".webp") then u16 "image/webp"
      else u16 "image/jpeg" in
    ret {| data := base64; mediaType := mediaType |}
  else
    match https_get env imagePath with
    | RequestError e => throw e
    | Response response =>
        match failure response with
        | Some e => throw e
        | None =>
            let buffer := List.concat (chunks response) in
            let contentType :=
              match Obj.assoc (headers response) (u16 "content-type") with
              | Some ((_ :: _) as v) => v
              | _ => u16 "image/jpeg"
              end in
            ret {| data := Base64.encode buffer;
                   mediaType := splitHead 59 contentType |}
        end
    end.

Definition extractText (env : Env) (imagePath : jsstring) : Async jsstring :=
  r <- fetchImageAsBase64 env imagePath ;;
  let base64Image := data r in
  let mediaType := mediaType r in
  response <- client_messages_create env
    {| Sdk.model := u16 "claude-opus-4-1-20250805";
       Sdk.max_tokens := 1024;
       Sdk.messages :=
         [ {| Sdk.role := u16 "user";
              Sdk.content :=
                [ sourceBlock (u16 "image") (base64Source mediaType base64Image);
                  textBlock (u16 "Please extract all text from this image and return it in markdown format.") ] |} ] |} ;;
  let textContent := find isText (Message.content response) in
  match textContent with
  | Some (Sdk.TextBlock text) => ret text
  | _ => ret []
  end.

Definition descriptions : list (jsstring * Obj.jsval) :=
  [ (u16 "invoiceNumber", Obj.VString (u16 "Invoice number or ID"));
    (u16 "licensePlate", Obj.VString (u16 "License plate number or vehicle registration"));
    (u16 "amountDue", Obj.VString (u16 "Amount due (total amount to pay)"));
    (u16 "dueDate", Obj.VString (u16 "Due date for payment"));
    (u16 "company", Obj.VString (u16 "Company or organization name"));
    (u16 "address", Obj.VString (u16 "Address")) ].

Definition describe (field : jsstring) : Obj.jsval :=
  Obj.or (Obj.get descriptions field) (Obj.VString field).

Definition structuredPrompt (fieldsDescription : jsstring) : jsstring :=
  lines
    [ u16 "Extract the following information from this image and return ONLY a JSON object (no markdown, no extra text): "
        ++ fieldsDescription ++ u16 ".";
      [];
      u16 "Return as JSON like this example:";
      u16 "{";
      u16 "  'invoiceNumber': 'value',";
      u16 "  'licensePlate': 'value',";
      u16 "  'amountDue': 'value',";
      u16 "  'dueDate': 'value'";
      u16 "}";
      [];
      u16 "If a field is not found, use null." ].

Definition recover (text : jsstring) : Async JSON.value :=
  returned <-
    tryCatch
      (let jsonText := trim text in
       let jsonMatch := regexMatch jsonPattern jsonText in
       match jsonMatch with
       | Some m =>
           parsed <- lift (JSON.parse m) ;;
           ret (Some parsed)
       | None => ret None
       end)
      (fun error =>
         _ <- console_error (u16 "Failed to parse structured data:") error ;;
         ret None) ;;
  match returned with
  | Some parsed => ret parsed
  | None => ret emptyObject
  end.

Definition extractStructuredData (env : Env) (imagePath : jsstring)
    (fields : option (list jsstring)) : Async JSON.value :=
  let fields := match fields with Some f => f | None => defaultFields end in
  r <- fetchImageAsBase64 env imagePath ;;
  let base64Image := data r in
  let mediaType := mediaType r in
  let fieldsDescription := Obj.joinValues (u16 ", ") (map describe fields) in
  response <- client_messages_create env
    {| Sdk.model := u16 "claude-opus-4-1-20250805";
       Sdk.max_tokens := 500;
       Sdk.messages :=
         [ {| Sdk.role := u16 "user";
              Sdk.content :=
                [ sourceBlock (u16 "image") (base64Source mediaType base64Image);
                  textBlock (structuredPrompt fieldsDescription) ] |} ] |} ;;
  let textContent := find isText (Message.content response) in
  match textContent with
  | Some (Sdk.TextBlock text) => recover text
  | _ => ret emptyObject
  end.

End Part001.

(** ** The statements' vocabulary *)

(** Index of the first occurrence of a character. *)
Fixpoint indexOf (c : char16) (s : jsstring) : option nat :=
  match s with
  | [] => None
  | x :: s' => if x =? c then Some O else option_map S (indexOf c s')
  end.

(** Index of the last occurrence of a character. *)
Fixpoint lastIndexOf (c : char16) (s : jsstring) : option nat :=
  match s with
  | [] => None
  | x :: s' =>
      match lastIndexOf c s' with
      | Some j => Some (S j)
      | None => if x =? c then Some O else None
      end
  end.

(** The span the specification describes: from the first opening brace
    through the last closing brace, when the latter comes after the
    former. *)
Definition braceSpan (s : jsstring) : option jsstring :=
  match indexOf 123 s, lastIndexOf 125 s with
  | Some i, Some j => if Nat.ltb i j then Some (slice s i (S j)) else None
  | _, _ => None
  end.

(** A model client that gives one fixed answer to every request. *)
Definition withReply (env : Env) (answer : Outcome Message.t) : Env :=
  {| fs := fs env; https_get := https_get env;
     messages_create := fun _ => answer |}.

Definition textReply (text : jsstring) : Message.t :=
  {| Message.content := [Sdk.TextBlock text] |}.

(** The state after one more request went out. *)
Definition logged (st : State) (q : Sdk.MessageCreateParams) : State :=
  {| requests := requests st ++ [q]; console := console st |}.

(** The request carries the resource in its first content block: a user
    message of two blocks, the first typed ["document"] exactly for a PDF
    and ["image"] otherwise, with the resource's media type and data; the
    second a text instruction. *)
Definition carriesResource (q : Sdk.MessageCreateParams) (r : Resource) : Prop :=
  exists (block : Sdk.ContentBlockParam) (instruction : jsstring),
    Sdk.messages q =
      [ {| Sdk.role := u16 "user";
           Sdk.content := [block; textBlock instruction] |} ]
    /\ Sdk.source block =
         Some {| Sdk.source_type := u16 "base64";
                 Sdk.media_type := mediaType r;
                 Sdk.data := data r |}
    /\ Sdk.text block = None
    /\ (Sdk.type block = u16 "document" <-> mediaType r = u16 "application/pdf")
    /\ (Sdk.type block = u16 "image" <-> mediaType r <> u16 "application/pdf").

(** What both [extractText] functions make of a reply. *)
Definition firstText (response : Message.t) : option jsstring :=
  match find isText (Message.content response) with
  | Some (Sdk.TextBlock text) => Some text
  | _ => None
  end.

(** How far the two copies of the fetcher agree: the same settlement, the
    same data and state, and the same media type unless the identifier is a
    local path with the lower-cased extension [.pdf]. *)
Definition agreeUpToPdf (localPdf : bool)
    (a b : Outcome Resource * State) : Prop :=
  match a, b with
  | (Resolved r1, s1), (Resolved r2, s2) =>
      data r1 = data r2 /\ s1 = s2
      /\ if localPdf
         then mediaType r1 = u16 "application/pdf"
              /\ mediaType r2 = u16 "image/jpeg"
         else mediaType r1 = mediaType r2
  | (Rejected e1, s1), (Rejected e2, s2) => e1 = e2 /\ s1 = s2
  | _, _ => False
  end.

(** ** Sample worlds *)

Module Sample.

Definition noNetwork (url : jsstring) : HttpsResult :=
  RequestError (MkError (u16 "Error") (u16 "getaddrinfo ENOTFOUND")).

Definition pdfPath : jsstring := u16 "/uploads/scan.PDF".

Definition pdfBytes : list byte := [x25; x50; x44; x46; x2d].

(** Prose and a fenced block around the object. *)
Definition fencedReply : jsstring :=
  lines
    [ u16 "Here is the result:";
      u16 "```json";
      u16 "{'invoiceNumber':'INV-001','amountDue':'42.50'}";
      u16 "```";
      u16 "Let me know if you need more." ].

Definition invoice : JSON.value :=
  JSON.JObject
    [ (u16 "invoiceNumber", JSON.JString (u16 "INV-001"));
      (u16 "amountDue", JSON.JString (u16 "42.50")) ].

(** Two objects with prose between them. *)
Definition twoFragments : jsstring :=
  u16 "{'invoiceNumber':'INV-001'} and {'amountDue':'42.50'}".

Definition noJson : jsstring := u16 "I could not read this document.".

(** One uploaded file, no network, and a model that answers with
    [fencedReply]. *)
Definition localEnv : Env :=
  {| fs := fun p => if streq p pdfPath then Some (RegularFile pdfBytes) else None;
     https_get := noNetwork;
     messages_create := fun _ => Resolved (textReply fencedReply) |}.

Definition url : jsstring := u16 "https://example.com/sample-image.jpg".

(** A response of three bytes in two chunks, with or without a
    [Content-Type] header. *)
Definition response (contentType : option jsstring) : IncomingMessage :=
  {| headers :=
       (u16 "content-length", u16 "3")
       :: match contentType with
          | Some v => [(u16 "content-type", v)]
          | None => []
          end;
     chunks := [[xff; xd8]; [xff]];
     failure := None |}.

(** No local files; [url] answers with [response contentType]. *)
Definition remoteEnv (contentType : option jsstring) : Env :=
  {| fs := fun _ => None;
     https_get := fun u =>
       if streq u url then Response (response contentType) else noNetwork u;
     messages_create := fun _ => Resolved (textReply fencedReply) |}.

End Sample.

(** ** [src/server.ts]

    The upload filter, the name a stored upload gets, the text extraction
    route and the error middleware. *)

Module Server.

Fixpoint digits (u : Decimal.uint) : jsstring :=
  match u with
  | Decimal.Nil => []
  | Decimal.D0 u' => 48 :: digits u'
  | Decimal.D1 u' => 49 :: digits u'
  | Decimal.D2 u' => 50 :: digits u'
  | Decimal.D3 u' => 51 :: digits u'
  | Decimal.D4 u' => 52 :: digits u'
  | Decimal.D5 u' => 53 :: digits u'
  | Decimal.D6 u' => 54 :: digits u'
  | Decimal.D7 u' => 55 :: digits u'
  | Decimal.D8 u' => 56 :: digits u'
  | Decimal.D9 u' => 57 :: digits u'
  end.

(** A number in a string concatenation, for a non-negative integer that
    JavaScript writes without an exponent, as [Date.now()] and
    [Math.round(Math.random() * 1e9)] are. *)
Definition numberToString (n : N) : jsstring := digits (N.to_uint n).

(** [s.startsWith(prefix)] *)
Fixpoint startsWith (s prefix : jsstring) : bool :=
  match prefix, s with
  | [], _ => true
  | p :: prefix', c :: s' => (c =? p) && startsWith s' prefix'
  | _ :: _, [] => false
  end.

(** What multer knows of a file part before it is stored. *)
Record File := {
  fieldname : jsstring;
  originalname : jsstring;
  mimetype : jsstring
}.

(** [fileFilter]: [cb(null, true)] or [cb(new Error(...))]. *)
Definition fileFilter (file : File) : Outcome bool :=
  if startsWith (mimetype file) (u16 "image/") then Resolved true
  else Rejected (MkError (u16 "Error") (u16 "Only image files are allowed")).

(** [storage.filename]; [now] is [Date.now()] and [random] is
    [Math.round(Math.random() * 1e9)]. *)
Definition filename (file : File) (now random : N) : jsstring :=
  let uniqueSuffix := numberToString now ++ u16 "-" ++ numberToString random in
  fieldname file ++ u16 "-" ++ uniqueSuffix ++ Path.extname (originalname file).

(** [req.file.path] as disk storage sets it: the destination directory, a
    separator and the file name. *)
Definition storedPath (uploadsDir name : jsstring) : jsstring :=
  uploadsDir ++ [47] ++ name.

Record Reply := {
  status : N;
  body : JSON.value
}.

(** [res.status(code).json({ error: message })] *)
Definition errorReply (code : N) (message : jsstring) : Reply :=
  {| status := code;
     body := JSON.JObject [(u16 "error", JSON.JString message)] |}.

(** What reaches the error middleware: a [MulterError] or another error. *)
Inductive Raised :=
| MulterError (code message : jsstring)
| OtherError (e : JsError).

Definition raisedMessage (err : Raised) : jsstring :=
  match err with
  | MulterError _ message => message
  | OtherError (MkError _ message) => message
  end.

Definition errorMiddleware (err : Raised) : Reply :=
  let limit :=
    match err with
    | MulterError code _ => streq code (u16 "LIMIT_FILE_SIZE")
    | OtherError _ => false
    end in
  if limit then errorReply 400 (u16 "File size exceeds 5MB limit")
  else
    match raisedMessage err with
    | _ :: _ => errorReply 400 (raisedMessage err)
    | [] => errorReply 500 (u16 "An error occurred")
    end.

(** The request as the route sees it: [req.file.path] when multer stored a
    file. *)
Record Request := {
  file : option jsstring
}.

(** The extraction state and the paths handed to [fs.unlink], oldest
    first. *)
Record ServerState := {
  core : State;
  unlinked : list jsstring
}.

(** [fs.unlink(path, callback)]; [unlinkResult] says how the removal ends,
    and the callback reports an error on the console. *)
Definition unlink (unlinkResult : jsstring -> option JsError) (path : jsstring)
    (s : ServerState) : ServerState :=
  {| core :=
       match unlinkResult path with
       | Some err =>
           {| requests := requests (core s);
              console := console (core s)
                         ++ [(u16 "Error deleting file:", err)] |}
       | None => core s
       end;
     unlinked := unlinked s ++ [path] |}.

Definition errorMessage (error : JsError) : jsstring :=
  match error with
  | MkError _ message => message
  end.

(** [POST /api/extract] *)
Definition extractRoute (env : Env) (unlinkResult : jsstring -> option JsError)
    (req : Request) (s : ServerState) : Reply * ServerState :=
  match file req with
  | None => (errorReply 400 (u16 "No image file provided"), s)
  | Some filePath =>
      match ExtractText.extractText env filePath (core s) with
      | (Resolved extractedText, st') =>
          ({| status := 200;
              body := JSON.JObject [(u16 "text", JSON.JString extractedText)] |},
           unlink unlinkResult filePath
             {| core := st'; unlinked := unlinked s |})
      | (Rejected error, st') =>
          (errorReply 500 (errorMessage error),
           unlink unlinkResult filePath
             {| core := st'; unlinked := unlinked s |})
      end
  end.

End Server.

(** ** More vocabulary and sample worlds *)

(** Neither a dot nor a slash occurs in the string. *)
Definition plain (s : jsstring) : Prop := ~ In 46 s /\ ~ In 47 s.

(** The request carries the resource in an image block, whatever its media
    type. *)
Definition carriesAsImage (q : Sdk.MessageCreateParams) (r : Resource) : Prop :=
  exists instruction : jsstring,
    Sdk.messages q =
      [ {| Sdk.role := u16 "user";
           Sdk.content :=
             [ sourceBlock (u16 "image") (base64Source (mediaType r) (data r));
               textBlock instruction ] |} ].

Module Sample2.

Definition eisdir : JsError :=
  MkError (u16 "Error") (u16 "EISDIR: illegal operation on a directory, read").

(** The uploads directory itself: it exists and cannot be read as a file. *)
Definition directoryEnv : Env :=
  {| fs := fun p => if streq p (u16 "/uploads") then Some (Unreadable eisdir) else None;
     https_get := Sample.noNetwork;
     messages_create := fun _ => Resolved (textReply Sample.fencedReply) |}.

Definition overloaded : JsError :=
  MkError (u16 "APIError") (u16 "529 Overloaded").

Definition upload : Server.File :=
  {| Server.fieldname := u16 "image";
     Server.originalname := u16 "Toll Invoice.March.PDF";
     Server.mimetype := u16 "image/png" |}.

End Sample2.

(** * Properties *)

(** ** Strings *)

Lemma streq_eq (a b : jsstring) : streq a b = true <-> a = b.
Proof.
  revert b; induction a as [|x a IH]; intros [|y b]; simpl; split;
    try congruence; try reflexivity.
  - intros H. apply andb_true_iff in H. destruct H as [Hx Hab].
    apply N.eqb_eq in Hx. apply IH in Hab. congruence.
  - intros H. injection H as -> ->. rewrite N.eqb_refl. simpl.
    apply IH. reflexivity.
Qed.

Lemma streq_neq (a b : jsstring) : streq a b = false <-> a <> b.
Proof.
  split.
  - intros H E. apply streq_eq in E. congruence.
  - intros H. destruct (streq a b) eqn:E; [|reflexivity].
    apply streq_eq in E. contradiction.
Qed.

(** ** Resource fetching *)

Lemma fetchFileAsBase64_state env filePath st :
  snd (ExtractText.fetchFileAsBase64 env filePath st) = st.
Proof.
  unfold ExtractText.fetchFileAsBase64, bind, lift, ret, throw.
  destruct (existsSync env filePath).
  - destruct (readFileSync env filePath); reflexivity.
  - destruct (https_get env filePath) as [e|response]; [reflexivity|].
    destruct (failure response); reflexivity.
Qed.

Lemma fetch_local env filePath bytes st :
  fs env filePath = Some (RegularFile bytes) ->
  ExtractText.fetchFileAsBase64 env filePath st =
  (Resolved
     {| data := Base64.encode bytes;
        mediaType :=
          let ext := toLowerCase (Path.extname filePath) in
          if streq ext (u16 ".pdf") then u16 "application/pdf"
          else if streq ext (u16 ".png") then u16 "image/png"
          else if streq ext (u16 ".gif") then u16 "image/gif"
          else if streq ext (u16 ".webp") then u16 "image/webp"
          else u16 "image/jpeg" |}, st).
Proof.
  intros H.
  unfold ExtractText.fetchFileAsBase64, existsSync, readFileSync, bind, lift, ret.
  rewrite H. reflexivity.
Qed.

Lemma fetch_local_older env imagePath bytes st :
  fs env imagePath = Some (RegularFile bytes) ->
  Part001.fetchImageAsBase64 env imagePath st =
  (Resolved
     {| data := Base64.encode bytes;
        mediaType :=
          let ext := toLowerCase (Path.extname imagePath) in
          if streq ext (u16 ".png") then u16 "image/png"
          else if streq ext (u16 ".gif") then u16 "image/gif"
          else if streq ext (u16 ".webp") then u16 "image/webp"
          else u16 "image/jpeg" |}, st).
Proof.
  intros H.
  unfold Part001.fetchImageAsBase64, existsSync, readFileSync, bind, lift, ret.
  rewrite H. reflexivity.
Qed.

(** C1, as the code has it: a local path that names a readable file
    resolves with the file's bytes in base64 and a media type fixed by the
    lower-cased extension alone, the same whatever bytes the file holds.
    In [extractText.ts], [.pdf], [.png], [.gif] and [.webp] give their own
    type and every other extension and no extension give [image/jpeg].
    The older copy has the same table without the [.pdf] row, so [.pdf]
    gives [image/jpeg] there like any other extension. *)
Theorem local_media_type_by_extension :
  forall (env1 env2 : Env) (filePath : jsstring) (bytes1 bytes2 : list byte)
         (st1 st2 : State),
    fs env1 filePath = Some (RegularFile bytes1) ->
    fs env2 filePath = Some (RegularFile bytes2) ->
    (exists mt : jsstring,
        ExtractText.fetchFileAsBase64 env1 filePath st1 =
          (Resolved {| data := Base64.encode bytes1; mediaType := mt |}, st1)
        /\ ExtractText.fetchFileAsBase64 env2 filePath st2 =
          (Resolved {| data := Base64.encode bytes2; mediaType := mt |}, st2)
        /\ (toLowerCase (Path.extname filePath) = u16 ".pdf" ->
            mt = u16 "application/pdf")
        /\ (toLowerCase (Path.extname filePath) = u16 ".png" ->
            mt = u16 "image/png")
        /\ (toLowerCase (Path.extname filePath) = u16 ".gif" ->
            mt = u16 "image/gif")
        /\ (toLowerCase (Path.extname filePath) = u16 ".webp" ->
            mt = u16 "image/webp")
        /\ (toLowerCase (Path.extname filePath) <> u16 ".pdf" ->
            toLowerCase (Path.extname filePath) <> u16 ".png" ->
            toLowerCase (Path.extname filePath) <> u16 ".gif" ->
            toLowerCase (Path.extname filePath) <> u16 ".webp" ->
            mt = u16 "image/jpeg"))
    /\ (exists mt : jsstring,
        Part001.fetchImageAsBase64 env1 filePath st1 =
          (Resolved {| data := Base64.encode bytes1; mediaType := mt |}, st1)
        /\ Part001.fetchImageAsBase64 env2 filePath st2 =
          (Resolved {| data := Base64.encode bytes2; mediaType := mt |}, st2)
        /\ (toLowerCase (Path.extname filePath) = u16 ".png" ->
            mt = u16 "image/png")
        /\ (toLowerCase (Path.extname filePath) = u16 ".gif" ->
            mt = u16 "image/gif")
        /\ (toLowerCase (Path.extname filePath) = u16 ".webp" ->
            mt = u16 "image/webp")
        /\ (toLowerCase (Path.extname filePath) <> u16 ".png" ->
            toLowerCase (Path.extname filePath) <> u16 ".gif" ->
            toLowerCase (Path.extname filePath) <> u16 ".webp" ->
            mt = u16 "image/jpeg")).
Proof.
  intros env1 env2 filePath bytes1 bytes2 st1 st2 H1 H2.
  rewrite (fetch_local env1 filePath bytes1 st1 H1).
  rewrite (fetch_local env2 filePath bytes2 st2 H2).
  rewrite (fetch_local_older env1 filePath bytes1 st1 H1).
  rewrite (fetch_local_older env2 filePath bytes2 st2 H2).
  cbv zeta.
  set (ext := toLowerCase (Path.extname filePath)).
  split; (eexists; split; [reflexivity|]; split; [reflexivity|]); repeat split.
  - intros E. rewrite E. reflexivity.
  - intros E. rewrite E. reflexivity.
  - intros E. rewrite E. reflexivity.
  - intros E. rewrite E. reflexivity.
  - intros E1 E2 E3 E4. apply streq_neq in E1, E2, E3, E4.
    rewrite E1, E2, E3, E4. reflexivity.
  - intros E. rewrite E. reflexivity.
  - intros E. rewrite E. reflexivity.
  - intros E. rewrite E. reflexivity.
  - intros E2 E3 E4. apply streq_neq in E2, E3, E4.
    rewrite E2, E3, E4. reflexivity.
Qed.

Lemma local_media_type_by_extension_witness :
  ExtractText.fetchFileAsBase64 Sample.localEnv Sample.pdfPath State0 =
  (Resolved {| data := u16 "JVBERi0="; mediaType := u16 "application/pdf" |},
   State0).
Proof.
  destruct (local_media_type_by_extension
              Sample.localEnv Sample.localEnv Sample.pdfPath
              Sample.pdfBytes Sample.pdfBytes State0 State0
              eq_refl eq_refl)
    as ((mt & Hfetch & _ & Hpdf & _) & _).
  rewrite Hfetch, (Hpdf eq_refl). reflexivity.
Defined.

(** C1, as stated, fails for the older copy on an uploaded [.PDF]: the
    lower-cased extension is [.pdf] and the reported type is
    [image/jpeg]. *)
Lemma older_copy_reports_jpeg_for_pdf :
  fs Sample.localEnv Sample.pdfPath = Some (RegularFile Sample.pdfBytes)
  /\ toLowerCase (Path.extname Sample.pdfPath) = u16 ".pdf"
  /\ Part001.fetchImageAsBase64 Sample.localEnv Sample.pdfPath State0 =
     (Resolved {| data := u16 "JVBERi0="; mediaType := u16 "image/jpeg" |},
      State0)
  /\ u16 "image/jpeg" <> u16 "application/pdf".
Proof.
  repeat split. discriminate.
Qed.

(** The extension is what follows the last dot of the last path segment;
    a leading dot starts no extension. *)
Example extname_examples :
  Path.extname (u16 "index.html") = u16 ".html"
  /\ Path.extname (u16 "index.coffee.md") = u16 ".md"
  /\ Path.extname (u16 "index.") = u16 "."
  /\ Path.extname (u16 "index") = []
  /\ Path.extname (u16 ".index") = []
  /\ Path.extname (u16 ".index.md") = u16 ".md"
  /\ Path.extname (u16 "/uploads.d/scan") = []
  /\ Path.extname (u16 "/uploads/scan.webp/") = u16 ".webp"
  /\ toLowerCase (Path.extname (u16 "/uploads/Scan.PnG")) = u16 ".png".
Proof. repeat split. Qed.

(** ** Requests *)

Ltac carries_resource E :=
  eexists; eexists; split; [reflexivity|];
  split; [reflexivity|]; split; [reflexivity|]; simpl;
  first [ apply streq_eq in E | apply streq_neq in E ];
  split; split; intros; try assumption; try reflexivity;
  try discriminate; try contradiction.

Lemma extractText_run env filePath st r st' :
  ExtractText.fetchFileAsBase64 env filePath st = (Resolved r, st') ->
  exists q : Sdk.MessageCreateParams,
    carriesResource q r
    /\ ExtractText.extractText env filePath st =
       (match messages_create env q with
        | Resolved response =>
            match firstText response with
            | Some text => Resolved text
            | None => Resolved []
            end
        | Rejected e => Rejected e
        end, logged st q).
Proof.
  intros H.
  assert (st' = st) as ->.
  { rewrite <- (fetchFileAsBase64_state env filePath st), H. reflexivity. }
  unfold ExtractText.extractText, bind. rewrite H. cbv zeta.
  unfold client_messages_create, push.
  destruct (streq (mediaType r) (u16 "application/pdf")) eqn:E; simpl app;
  match goal with |- context [messages_create env ?q] => exists q end;
  (split; [carries_resource E|]).
  all: unfold logged, firstText;
    match goal with |- context [messages_create ?e ?q] =>
      destruct (messages_create e q) as [response|err] end;
    [|reflexivity];
    destruct (find isText (Message.content response)) as [[]|]; reflexivity.
Qed.

Lemma extractText_fetch_rejected env filePath st e st' :
  ExtractText.fetchFileAsBase64 env filePath st = (Rejected e, st') ->
  ExtractText.extractText env filePath st = (Rejected e, st).
Proof.
  intros H.
  assert (st' = st) as ->.
  { rewrite <- (fetchFileAsBase64_state env filePath st), H. reflexivity. }
  unfold ExtractText.extractText, bind. rewrite H. reflexivity.
Qed.

Lemma extractStructuredData_run env filePath fields st r st' :
  ExtractText.fetchFileAsBase64 env filePath st = (Resolved r, st') ->
  exists q : Sdk.MessageCreateParams,
    carriesResource q r
    /\ ExtractText.extractStructuredData env filePath fields st =
       match messages_create env q with
       | Resolved response =>
           match firstText response with
           | Some text => ExtractText.recover text (logged st q)
           | None => (Resolved emptyObject, logged st q)
           end
       | Rejected e => (Rejected e, logged st q)
       end.
Proof.
  intros H.
  assert (st' = st) as ->.
  { rewrite <- (fetchFileAsBase64_state env filePath st), H. reflexivity. }
  unfold ExtractText.extractStructuredData, bind. rewrite H. cbv zeta.
  unfold client_messages_create, push.
  destruct (streq (mediaType r) (u16 "application/pdf")) eqn:E; simpl app;
  match goal with |- context [messages_create env ?q] => exists q end;
  (split; [carries_resource E|]).
  all: unfold logged, firstText;
    match goal with |- context [messages_create ?e ?q] =>
      destruct (messages_create e q) as [response|err] end;
    [|reflexivity];
    destruct (find isText (Message.content response)) as [[]|]; reflexivity.
Qed.

Lemma extractStructuredData_fetch_rejected env filePath fields st e st' :
  ExtractText.fetchFileAsBase64 env filePath st = (Rejected e, st') ->
  ExtractText.extractStructuredData env filePath fields st = (Rejected e, st).
Proof.
  intros H.
  assert (st' = st) as ->.
  { rewrite <- (fetchFileAsBase64_state env filePath st), H. reflexivity. }
  unfold ExtractText.extractStructuredData, bind. rewrite H. reflexivity.
Qed.

(** C6: once the resource is fetched, [extractText] and
    [extractStructuredData] each send exactly one request; its first
    content block is typed ["document"] exactly when the fetched media type
    is [application/pdf] and ["image"] otherwise, and carries the fetched
    media type and data unchanged. *)
Theorem request_block_follows_media_type :
  forall (env : Env) (filePath : jsstring) (fields : option (list jsstring))
         (st st' : State) (r : Resource),
    ExtractText.fetchFileAsBase64 env filePath st = (Resolved r, st') ->
    (exists q,
        requests (snd (ExtractText.extractText env filePath st)) =
          requests st ++ [q]
        /\ carriesResource q r)
    /\ (exists q,
        requests (snd (ExtractText.extractStructuredData env filePath fields st)) =
          requests st ++ [q]
        /\ carriesResource q r).
Proof.
  intros env filePath fields st st' r H. split.
  - destruct (extractText_run env filePath st r st' H) as (q & Hq & Hrun).
    exists q. split; [|exact Hq]. rewrite Hrun. reflexivity.
  - destruct (extractStructuredData_run env filePath fields st r st' H)
      as (q & Hq & Hrun).
    exists q. split; [|exact Hq]. rewrite Hrun.
    destruct (messages_create env q) as [response|e]; [|reflexivity].
    destruct (firstText response) as [text|]; [|reflexivity].
    unfold ExtractText.recover, bind, tryCatch, lift, ret, console_error.
    cbv zeta.
    destruct (regexMatch jsonPattern (trim text)) as [m|]; [|reflexivity].
    destruct (JSON.parse m); reflexivity.
Qed.

Lemma request_block_follows_media_type_witness :
  (exists q,
      requests (snd (ExtractText.extractText Sample.localEnv Sample.pdfPath State0)) =
        requests State0 ++ [q]
      /\ carriesResource q
           {| data := Base64.encode Sample.pdfBytes;
              mediaType := u16 "application/pdf" |})
  /\ (exists q,
      requests (snd (ExtractText.extractStructuredData
                       Sample.localEnv Sample.pdfPath None State0)) =
        requests State0 ++ [q]
      /\ carriesResource q
           {| data := Base64.encode Sample.pdfBytes;
              mediaType := u16 "application/pdf" |}).
Proof.
  apply (request_block_follows_media_type
           Sample.localEnv Sample.pdfPath None State0 State0
           {| data := Base64.encode Sample.pdfBytes;
              mediaType := u16 "application/pdf" |}).
  reflexivity.
Defined.

(** ** The brace pattern *)

Lemma anyChar_true (c : char16) : anyChar c = true.
Proof. unfold anyChar. apply orb_negb_r. Qed.

(** The greedy tail of the pattern, one character at a time. *)
Lemma star_cons (x : char16) (s : jsstring) :
  matchHere [StarClass anyChar; Lit 125] (x :: s) =
  match matchHere [StarClass anyChar; Lit 125] s with
  | Some m => Some (x :: m)
  | None => if x =? 125 then Some [x] else None
  end.
Proof.
  simpl. rewrite anyChar_true.
  destruct (x =? 125); reflexivity.
Qed.

Lemma pattern_cons (x : char16) (s : jsstring) :
  matchHere jsonPattern (x :: s) =
  if x =? 123
  then option_map (cons x) (matchHere [StarClass anyChar; Lit 125] s)
  else None.
Proof. reflexivity. Qed.

Lemma regexMatch_cons (x : char16) (s : jsstring) :
  regexMatch jsonPattern (x :: s) =
  match matchHere jsonPattern (x :: s) with
  | Some m => Some m
  | None => regexMatch jsonPattern s
  end.
Proof. reflexivity. Qed.

(** The tail matches up to the last closing brace. *)
Lemma star_lastIndexOf (s : jsstring) :
  matchHere [StarClass anyChar; Lit 125] s =
  option_map (fun j => firstn (S j) s) (lastIndexOf 125 s).
Proof.
  induction s as [|x s IH]; [reflexivity|].
  rewrite star_cons, IH. simpl lastIndexOf.
  destruct (lastIndexOf 125 s) as [j|]; simpl; [reflexivity|].
  destruct (x =? 125); reflexivity.
Qed.

Lemma braceSpan_cons_other (x : char16) (s : jsstring) :
  (x =? 123) = false -> braceSpan (x :: s) = braceSpan s.
Proof.
  intros Hx. unfold braceSpan. simpl. rewrite Hx.
  destruct (indexOf 123 s) as [i|]; simpl; [|reflexivity].
  destruct (lastIndexOf 125 s) as [j|].
  - change (Nat.ltb (S i) (S j)) with (Nat.ltb i j).
    destruct (Nat.ltb i j); reflexivity.
  - destruct (x =? 125); reflexivity.
Qed.

Lemma braceSpan_no_closing (s : jsstring) :
  lastIndexOf 125 s = None -> braceSpan s = None.
Proof.
  intros H. unfold braceSpan. rewrite H.
  destruct (indexOf 123 s); reflexivity.
Qed.

(** The pattern finds the span from the first opening brace through the
    last closing brace. *)
Lemma regexMatch_braceSpan (s : jsstring) :
  regexMatch jsonPattern s = braceSpan s.
Proof.
  induction s as [|x s IH]; [reflexivity|].
  rewrite regexMatch_cons, pattern_cons.
  destruct (x =? 123) eqn:Hx.
  - rewrite star_lastIndexOf.
    unfold braceSpan. simpl indexOf. rewrite Hx. simpl lastIndexOf.
    destruct (lastIndexOf 125 s) as [j|] eqn:Hj; simpl.
    + reflexivity.
    + apply N.eqb_eq in Hx. subst x. simpl.
      rewrite IH. apply braceSpan_no_closing. exact Hj.
  - rewrite IH. symmetry. apply braceSpan_cons_other. exact Hx.
Qed.

Lemma star_none (s : jsstring) :
  matchHere [StarClass anyChar; Lit 125] s = None <-> ~ In 125 s.
Proof.
  induction s as [|x s IH].
  - simpl. tauto.
  - rewrite star_cons.
    destruct (matchHere [StarClass anyChar; Lit 125] s) as [m|].
    + split; [discriminate|]. intros H. exfalso.
      assert (Hs : ~ In 125 s) by (intros Hin; apply H; right; exact Hin).
      apply IH in Hs. discriminate.
    + destruct (x =? 125) eqn:Hx.
      * apply N.eqb_eq in Hx. split; [discriminate|].
        intros H. exfalso. apply H. left. exact Hx.
      * apply N.eqb_neq in Hx. split; [|reflexivity].
        intros _ [Hin|Hin]; [contradiction|].
        destruct IH as [IH _]. exact (IH eq_refl Hin).
Qed.

Lemma star_some (s m : jsstring) :
  matchHere [StarClass anyChar; Lit 125] s = Some m ->
  exists mid post, s = m ++ post /\ m = mid ++ [125] /\ ~ In 125 post.
Proof.
  revert m; induction s as [|x s IH]; intros m; [discriminate|].
  rewrite star_cons.
  destruct (matchHere [StarClass anyChar; Lit 125] s) as [m'|] eqn:Hs.
  - intros H; injection H as <-.
    destruct (IH m' eq_refl) as (mid & post & -> & -> & Hpost).
    exists (x :: mid), post. repeat split; assumption.
  - destruct (x =? 125) eqn:Hx; [|discriminate].
    intros H; injection H as <-. apply N.eqb_eq in Hx. subst x.
    exists [], s. repeat split. apply star_none. exact Hs.
Qed.

Lemma star_complete (mid post : jsstring) :
  ~ In 125 post ->
  matchHere [StarClass anyChar; Lit 125] (mid ++ 125 :: post) = Some (mid ++ [125]).
Proof.
  intros Hpost. induction mid as [|x mid IH]; simpl app.
  - rewrite star_cons.
    apply star_none in Hpost. rewrite Hpost. reflexivity.
  - rewrite star_cons, IH. reflexivity.
Qed.

(** A match starts at the first opening brace and ends at the last closing
    brace of the text. *)
Lemma regexMatch_some (s m : jsstring) :
  regexMatch jsonPattern s = Some m ->
  exists pre mid post,
    s = pre ++ m ++ post /\ m = 123 :: mid ++ [125]
    /\ ~ In 123 pre /\ ~ In 125 post.
Proof.
  revert m; induction s as [|x s IH]; intros m; [discriminate|].
  rewrite regexMatch_cons, pattern_cons.
  destruct (x =? 123) eqn:Hx.
  - destruct (matchHere [StarClass anyChar; Lit 125] s) as [m'|] eqn:Hs; simpl.
    + intros H; injection H as <-. apply N.eqb_eq in Hx. subst x.
      destruct (star_some s m' Hs) as (mid & post & -> & -> & Hpost).
      exists [], mid, post. repeat split; [tauto | exact Hpost].
    + intros H. exfalso.
      destruct (IH m H) as (pre & mid & post & -> & -> & _ & _).
      apply star_none in Hs. apply Hs.
      apply in_or_app. right. apply in_or_app. left.
      right. apply in_or_app. right. left. reflexivity.
  - intros H.
    destruct (IH m H) as (pre & mid & post & -> & -> & Hpre & Hpost).
    exists (x :: pre), mid, post. repeat split; [|exact Hpost].
    apply N.eqb_neq in Hx.
    intros [Hin|Hin]; [congruence | contradiction].
Qed.

Lemma regexMatch_complete (pre mid post : jsstring) :
  ~ In 123 pre -> ~ In 125 post ->
  regexMatch jsonPattern (pre ++ 123 :: mid ++ 125 :: post) =
  Some (123 :: mid ++ [125]).
Proof.
  intros Hpre Hpost. induction pre as [|x pre IH]; simpl app.
  - rewrite regexMatch_cons, pattern_cons. simpl (123 =? 123).
    rewrite (star_complete mid post Hpost). reflexivity.
  - rewrite regexMatch_cons, pattern_cons.
    assert (Hx : (x =? 123) = false).
    { apply N.eqb_neq. intros ->. apply Hpre. left. reflexivity. }
    rewrite Hx. apply IH. intros Hin. apply Hpre. right. exact Hin.
Qed.

(** Without a substring that opens with a brace and closes with one there
    is no match. *)
Lemma regexMatch_none (s : jsstring) :
  (forall pre mid post, s <> pre ++ 123 :: mid ++ 125 :: post) ->
  regexMatch jsonPattern s = None.
Proof.
  intros H. destruct (regexMatch jsonPattern s) as [m|] eqn:Hm; [|reflexivity].
  exfalso.
  destruct (regexMatch_some s m Hm) as (pre & mid & post & -> & -> & _ & _).
  apply (H pre mid post). simpl. rewrite <- app_assoc. reflexivity.
Qed.

Lemma regexMatch_found (pre mid post : jsstring) :
  regexMatch jsonPattern (pre ++ 123 :: mid ++ 125 :: post) <> None.
Proof.
  induction pre as [|x pre IH]; simpl app.
  - rewrite regexMatch_cons, pattern_cons. simpl (123 =? 123).
    destruct (matchHere [StarClass anyChar; Lit 125] (mid ++ 125 :: post)) eqn:Hs.
    + discriminate.
    + exfalso. apply star_none in Hs. apply Hs.
      apply in_or_app. right. left. reflexivity.
  - rewrite regexMatch_cons.
    destruct (matchHere jsonPattern (x :: pre ++ 123 :: mid ++ 125 :: post));
      [discriminate | exact IH].
Qed.

(** ** Parsing the reply *)

Lemma recover_run (text : jsstring) (st : State) :
  ExtractText.recover text st =
  match regexMatch jsonPattern (trim text) with
  | None => (Resolved emptyObject, st)
  | Some m =>
      match JSON.parse m with
      | Resolved parsed => (Resolved parsed, st)
      | Rejected e =>
          (Resolved emptyObject,
           {| requests := requests st;
              console := console st
                         ++ [(u16 "Failed to parse structured data:", e)] |})
      end
  end.
Proof.
  unfold ExtractText.recover, bind, tryCatch, lift, ret, console_error.
  cbv zeta.
  destruct (regexMatch jsonPattern (trim text)) as [m|]; [|reflexivity].
  destruct (JSON.parse m); reflexivity.
Qed.

Lemma recover_resolves (text : jsstring) (st : State) :
  exists v, fst (ExtractText.recover text st) = Resolved v.
Proof.
  rewrite recover_run.
  destruct (regexMatch jsonPattern (trim text)) as [m|]; [|eexists; reflexivity].
  destruct (JSON.parse m); eexists; reflexivity.
Qed.

Lemma isText_spec (b : Sdk.ContentBlock) :
  isText b = true <-> Sdk.blockType b = u16 "text".
Proof. unfold isText. apply streq_eq. Qed.

Lemma firstText_first (pre post : list Sdk.ContentBlock) (text : jsstring)
    (reply : Message.t) :
  Message.content reply = pre ++ Sdk.TextBlock text :: post ->
  (forall b, In b pre -> Sdk.blockType b <> u16 "text") ->
  firstText reply = Some text.
Proof.
  intros Hc Hpre. unfold firstText. rewrite Hc. clear Hc.
  induction pre as [|b pre IH]; simpl.
  - reflexivity.
  - destruct (isText b) eqn:Hb.
    + exfalso. apply (Hpre b); [left; reflexivity|].
      apply isText_spec. exact Hb.
    + apply IH. intros b' Hin. apply Hpre. right. exact Hin.
Qed.

Lemma firstText_none (reply : Message.t) :
  (forall b, In b (Message.content reply) -> Sdk.blockType b <> u16 "text") ->
  firstText reply = None.
Proof.
  intros H. unfold firstText.
  destruct (find isText (Message.content reply)) as [b|] eqn:Hf; [|reflexivity].
  apply find_some in Hf. destruct Hf as [Hin Hb].
  exfalso. apply (H b Hin). apply isText_spec. exact Hb.
Qed.

(** C3: on every reply text the recovery takes, from the trimmed text, the
    span from the first opening brace through the last closing brace and
    hands exactly that span to [JSON.parse]; without such a span the result
    is the empty object.  The object fenced in prose and markdown is
    recovered; two fragments are taken as one span, which does not parse,
    so neither fragment is picked. *)
Theorem recovery_takes_first_to_last_brace :
  (forall text, regexMatch jsonPattern (trim text) = braceSpan (trim text))
  /\ (forall text st,
        fst (ExtractText.recover text st) =
        match braceSpan (trim text) with
        | Some span =>
            match JSON.parse span with
            | Resolved parsed => Resolved parsed
            | Rejected _ => Resolved emptyObject
            end
        | None => Resolved emptyObject
        end)
  /\ braceSpan (trim Sample.fencedReply) =
       Some (u16 "{'invoiceNumber':'INV-001','amountDue':'42.50'}")
  /\ fst (ExtractText.recover Sample.fencedReply State0) = Resolved Sample.invoice
  /\ fst (ExtractText.extractStructuredData
            Sample.localEnv Sample.pdfPath None State0) = Resolved Sample.invoice
  /\ braceSpan (trim Sample.twoFragments) = Some Sample.twoFragments
  /\ fst (ExtractText.recover Sample.twoFragments State0) = Resolved emptyObject.
Proof.
  split; [intros text; apply regexMatch_braceSpan|].
  split.
  - intros text st. rewrite recover_run, regexMatch_braceSpan.
    destruct (braceSpan (trim text)) as [span|]; [|reflexivity].
    destruct (JSON.parse span); reflexivity.
  - repeat split; vm_compute; reflexivity.
Qed.

(** ** Trimming *)

Lemma trimStart_ws (w : jsstring) :
  forallb isWhiteSpace w = true -> trimStart w = [].
Proof.
  induction w as [|c w IH]; simpl; [reflexivity|].
  intros H. apply andb_true_iff in H. destruct H as [Hc Hw].
  rewrite Hc. apply IH. exact Hw.
Qed.

Lemma trimEnd_ws (w : jsstring) :
  forallb isWhiteSpace w = true -> trimEnd w = [].
Proof.
  induction w as [|c w IH]; simpl; [reflexivity|].
  intros H. apply andb_true_iff in H. destruct H as [Hc Hw].
  rewrite (IH Hw), Hc. reflexivity.
Qed.

Lemma trimStart_ws_app (w s : jsstring) :
  forallb isWhiteSpace w = true -> trimStart (w ++ s) = trimStart s.
Proof.
  induction w as [|c w IH]; simpl; [reflexivity|].
  intros H. apply andb_true_iff in H. destruct H as [Hc Hw].
  rewrite Hc. apply IH. exact Hw.
Qed.

Lemma trimEnd_app_ws (s w : jsstring) :
  forallb isWhiteSpace w = true -> trimEnd (s ++ w) = trimEnd s.
Proof.
  intros Hw. induction s as [|c s IH]; simpl.
  - apply trimEnd_ws. exact Hw.
  - rewrite IH. reflexivity.
Qed.

Lemma trim_app_ws (s w : jsstring) :
  forallb isWhiteSpace w = true -> trim (s ++ w) = trim s.
Proof.
  intros Hw. unfold trim. induction s as [|c s IH]; simpl.
  - rewrite (trimStart_ws w Hw). reflexivity.
  - destruct (isWhiteSpace c); [exact IH|].
    apply (trimEnd_app_ws (c :: s) w Hw).
Qed.

Lemma trim_surrounded (w1 s w2 : jsstring) :
  forallb isWhiteSpace w1 = true ->
  forallb isWhiteSpace w2 = true ->
  trim (w1 ++ s ++ w2) = trim s.
Proof.
  intros H1 H2. unfold trim.
  rewrite (trimStart_ws_app w1 (s ++ w2) H1).
  apply (trim_app_ws s w2 H2).
Qed.

(** What [trimEnd] and [trimStart] drop is white space around what they
    keep. *)
Lemma trimEnd_decompose (s : jsstring) :
  exists w, s = trimEnd s ++ w.
Proof.
  induction s as [|c s [w IH]]; simpl.
  - exists []. reflexivity.
  - destruct (trimEnd s) as [|x r] eqn:E.
    + destruct (isWhiteSpace c).
      * exists (c :: s). reflexivity.
      * exists w. simpl. rewrite IH at 1. reflexivity.
    + exists w. simpl. rewrite IH at 1. reflexivity.
Qed.

Lemma trimStart_decompose (s : jsstring) :
  exists w, s = w ++ trimStart s.
Proof.
  induction s as [|c s [w IH]]; simpl.
  - exists []. reflexivity.
  - destruct (isWhiteSpace c).
    + exists (c :: w). simpl. rewrite IH at 1. reflexivity.
    + exists []. reflexivity.
Qed.

Lemma trim_decompose (s : jsstring) :
  exists w1 w2, s = w1 ++ trim s ++ w2.
Proof.
  destruct (trimStart_decompose s) as [w1 H1].
  destruct (trimEnd_decompose (trimStart s)) as [w2 H2].
  exists w1, w2. unfold trim. rewrite <- H2. exact H1.
Qed.

(** A brace-delimited substring of the trimmed text is one of the text. *)
Lemma substring_of_trim (text pre mid post : jsstring) :
  trim text = pre ++ 123 :: mid ++ 125 :: post ->
  exists pre' post', text = pre' ++ 123 :: mid ++ 125 :: post'.
Proof.
  intros H. destruct (trim_decompose text) as (w1 & w2 & Hd).
  exists (w1 ++ pre), (post ++ w2).
  rewrite Hd at 1. rewrite H.
  repeat (rewrite <- app_assoc; simpl). reflexivity.
Qed.

(** C10: white space put before and after a reply text changes nothing in
    the recovery: the same value is resolved and the same state is left,
    whether the value is the parsed object or the empty one. *)
Theorem recovery_ignores_surrounding_whitespace :
  forall (text w1 w2 : jsstring) (st : State),
    forallb isWhiteSpace w1 = true ->
    forallb isWhiteSpace w2 = true ->
    ExtractText.recover (w1 ++ text ++ w2) st = ExtractText.recover text st.
Proof.
  intros text w1 w2 st H1 H2.
  rewrite !recover_run, (trim_surrounded w1 text w2 H1 H2). reflexivity.
Qed.

Lemma recovery_ignores_surrounding_whitespace_witness :
  ExtractText.recover
    (u16 "  " ++ Sample.fencedReply ++ [10; 9; 160; 8232]) State0 =
  ExtractText.recover Sample.fencedReply State0.
Proof.
  apply (recovery_ignores_surrounding_whitespace
           Sample.fencedReply (u16 "  ") [10; 9; 160; 8232] State0);
    reflexivity.
Defined.

(** ** What [JSON.parse] makes of a span *)

Lemma parseMembers_object (fuel : nat) :
  forall s acc v rest,
    JSON.parseMembers fuel s acc = Some (v, rest) ->
    exists props, v = JSON.JObject props.
Proof.
  induction fuel as [|fuel IH]; intros s acc v rest H; [discriminate|].
  simpl in H.
  repeat match type of H with
  | context [match ?x with _ => _ end] => destruct x eqn:?; try discriminate
  end.
  - eapply IH. exact H.
  - injection H as <- _. eexists. reflexivity.
Qed.

(** A text that opens with a brace parses to an object or not at all. *)
Lemma parse_brace_object (s : jsstring) (v : JSON.value) :
  JSON.parse (123 :: s) = Resolved v -> exists props, v = JSON.JObject props.
Proof.
  unfold JSON.parse.
  match goal with |- context [JSON.parseValue ?n _] =>
    destruct n as [|fuel] end; [discriminate|].
  destruct (JSON.parseValue (S fuel) (123 :: s)) as [[v' rest]|] eqn:Hp;
    [|discriminate].
  destruct (JSON.skipWs rest); [|discriminate].
  intros H; injection H as <-.
  change (JSON.parseValue (S fuel) (123 :: s)) with
    (match JSON.skipWs s with
     | c2 :: r2 =>
         if c2 =? 125 then Some (JSON.JObject [], r2)
         else JSON.parseMembers fuel (JSON.skipWs s) []
     | [] => None
     end) in Hp.
  destruct (JSON.skipWs s) as [|c2 r2]; [discriminate|].
  destruct (c2 =? 125).
  - injection Hp as <- _. eexists. reflexivity.
  - eapply parseMembers_object. exact Hp.
Qed.

(** ** Runs the model answered

    The resource was fetched, and the client answers [reply] to every
    request that carries it. *)

Section AnsweredRun.

Variables (env : Env) (filePath : jsstring) (st st' : State).
Variables (r : Resource) (reply : Message.t).

Hypothesis fetched :
  ExtractText.fetchFileAsBase64 env filePath st = (Resolved r, st').

Hypothesis answered :
  forall q, carriesResource q r -> messages_create env q = Resolved reply.

Lemma extractText_answered :
  fst (ExtractText.extractText env filePath st) =
  match firstText reply with
  | Some text => Resolved text
  | None => Resolved []
  end.
Proof.
  destruct (extractText_run env filePath st r st' fetched) as (q & Hq & Hrun).
  rewrite Hrun, (answered q Hq). reflexivity.
Qed.

Lemma extractStructuredData_answered (fields : option (list jsstring)) :
  exists q,
    ExtractText.extractStructuredData env filePath fields st =
    match firstText reply with
    | Some text => ExtractText.recover text (logged st q)
    | None => (Resolved emptyObject, logged st q)
    end.
Proof.
  destruct (extractStructuredData_run env filePath fields st r st' fetched)
    as (q & Hq & Hrun).
  exists q. rewrite Hrun, (answered q Hq). reflexivity.
Qed.

(** C9: when the resource was fetched and the model answered, plain-text
    extraction resolves with the text of the first block typed ["text"],
    whatever blocks of other types come before it, and with the empty
    string when the reply holds no such block. *)
Theorem extractText_first_text_block :
  (forall pre text post,
      Message.content reply = pre ++ Sdk.TextBlock text :: post ->
      (forall b, In b pre -> Sdk.blockType b <> u16 "text") ->
      fst (ExtractText.extractText env filePath st) = Resolved text)
  /\ ((forall b, In b (Message.content reply) -> Sdk.blockType b <> u16 "text") ->
      fst (ExtractText.extractText env filePath st) = Resolved []).
Proof.
  rewrite extractText_answered. split.
  - intros pre text post Hc Hpre.
    rewrite (firstText_first pre post text reply Hc Hpre). reflexivity.
  - intros Hnone. rewrite (firstText_none reply Hnone). reflexivity.
Qed.

(** C4: when the resource was fetched and the model answered, no failure
    to find or parse JSON is propagated.  Both operations resolve; a reply
    without a text block gives the empty object and the empty string; a
    text without a substring that opens with a brace and closes with one
    gives the empty object; so does a span that [JSON.parse] rejects. *)
Theorem parse_failures_yield_empty_results :
  forall fields : option (list jsstring),
    (exists v,
        fst (ExtractText.extractStructuredData env filePath fields st) = Resolved v)
    /\ (exists s, fst (ExtractText.extractText env filePath st) = Resolved s)
    /\ ((forall b, In b (Message.content reply) -> Sdk.blockType b <> u16 "text") ->
        fst (ExtractText.extractStructuredData env filePath fields st) =
          Resolved emptyObject
        /\ fst (ExtractText.extractText env filePath st) = Resolved [])
    /\ (forall text,
          firstText reply = Some text ->
          (forall pre mid post, text <> pre ++ 123 :: mid ++ 125 :: post) ->
          fst (ExtractText.extractStructuredData env filePath fields st) =
            Resolved emptyObject)
    /\ (forall text span e,
          firstText reply = Some text ->
          regexMatch jsonPattern (trim text) = Some span ->
          JSON.parse span = Rejected e ->
          fst (ExtractText.extractStructuredData env filePath fields st) =
            Resolved emptyObject).
Proof.
  intros fields.
  destruct (extractStructuredData_answered fields) as (q & Hs).
  rewrite Hs, extractText_answered.
  split; [|split; [|split; [|split]]].
  - destruct (firstText reply) as [text|]; [|eexists; reflexivity].
    apply recover_resolves.
  - destruct (firstText reply); eexists; reflexivity.
  - intros Hnone. rewrite (firstText_none reply Hnone). split; reflexivity.
  - intros text Hfirst Hno. rewrite Hfirst, recover_run.
    rewrite regexMatch_none; [reflexivity|].
    intros pre mid post Htrim.
    destruct (substring_of_trim text pre mid post Htrim) as (pre' & post' & E).
    exact (Hno pre' mid post' E).
  - intros text span e Hfirst Hspan Hparse.
    rewrite Hfirst, recover_run, Hspan, Hparse. reflexivity.
Qed.

(** C5: when the resource was fetched, the model answered, and the span
    found in the first text block parses, [extractStructuredData] resolves
    with the parsed value itself, whatever field list was asked for: its
    keys are those of the parsed object, none dropped and none added.  The
    value is an object. *)
Theorem parsed_object_returned_as_is :
  forall (text span : jsstring) (parsed : JSON.value),
    firstText reply = Some text ->
    regexMatch jsonPattern (trim text) = Some span ->
    JSON.parse span = Resolved parsed ->
    (exists props, parsed = JSON.JObject props)
    /\ forall fields : option (list jsstring),
        exists result,
          fst (ExtractText.extractStructuredData env filePath fields st) =
            Resolved result
          /\ result = parsed
          /\ JSON.keys result = JSON.keys parsed.
Proof.
  intros text span parsed Hfirst Hspan Hparse.
  split.
  - destruct (regexMatch_some (trim text) span Hspan)
      as (pre & mid & post & _ & Hm & _).
    subst span. exact (parse_brace_object (mid ++ [125]) parsed Hparse).
  - intros fields.
    destruct (extractStructuredData_answered fields) as (q & Hrun).
    exists parsed.
    rewrite Hrun, Hfirst, recover_run, Hspan, Hparse.
    repeat split.
Qed.

End AnsweredRun.

Lemma extractText_first_text_block_witness :
  fst (ExtractText.extractText Sample.localEnv Sample.pdfPath State0) =
  Resolved Sample.fencedReply.
Proof.
  apply (proj1 (extractText_first_text_block
                  Sample.localEnv Sample.pdfPath State0 State0
                  {| data := Base64.encode Sample.pdfBytes;
                     mediaType := u16 "application/pdf" |}
                  (textReply Sample.fencedReply)
                  eq_refl (fun _ _ => eq_refl))
               [] Sample.fencedReply []).
  - reflexivity.
  - intros b [].
Defined.

Lemma parse_failures_yield_empty_results_witness :
  fst (ExtractText.extractStructuredData
         (withReply Sample.localEnv (Resolved (textReply Sample.noJson)))
         Sample.pdfPath None State0) = Resolved emptyObject.
Proof.
  refine (proj1 (proj2 (proj2 (proj2
            (parse_failures_yield_empty_results
               (withReply Sample.localEnv (Resolved (textReply Sample.noJson)))
               Sample.pdfPath State0 State0
               {| data := Base64.encode Sample.pdfBytes;
                  mediaType := u16 "application/pdf" |}
               (textReply Sample.noJson)
               eq_refl (fun _ _ => eq_refl) None))))
            Sample.noJson eq_refl _).
  intros pre mid post E.
  assert (H : In 123 Sample.noJson).
  { rewrite E. apply in_or_app. right. left. reflexivity. }
  cbv in H. intuition discriminate.
Defined.

Lemma parsed_object_returned_as_is_witness :
  exists result,
    fst (ExtractText.extractStructuredData Sample.localEnv Sample.pdfPath
           (Some [u16 "invoiceNumber"; u16 "dueDate"]) State0) = Resolved result
    /\ result = Sample.invoice
    /\ JSON.keys result = [u16 "invoiceNumber"; u16 "amountDue"].
Proof.
  apply (proj2 (parsed_object_returned_as_is
                  Sample.localEnv Sample.pdfPath State0 State0
                  {| data := Base64.encode Sample.pdfBytes;
                     mediaType := u16 "application/pdf" |}
                  (textReply Sample.fencedReply)
                  eq_refl (fun _ _ => eq_refl)
                  Sample.fencedReply
                  (u16 "{'invoiceNumber':'INV-001','amountDue':'42.50'}")
                  Sample.invoice
                  eq_refl eq_refl eq_refl)).
Defined.

(** ** Remote resources *)

Lemma splitHead_spec (sep : char16) (v : jsstring) :
  ~ In sep (splitHead sep v)
  /\ (v = splitHead sep v \/ exists rest, v = splitHead sep v ++ sep :: rest).
Proof.
  induction v as [|c v [IHn IHd]]; simpl.
  - split; [tauto | left; reflexivity].
  - destruct (c =? sep) eqn:Hc.
    + apply N.eqb_eq in Hc. subst c.
      split; [simpl; tauto | right; exists v; reflexivity].
    + apply N.eqb_neq in Hc. split.
      * intros [H|H]; [congruence | contradiction].
      * destruct IHd as [IHd | [rest IHd]].
        -- left. rewrite <- IHd. reflexivity.
        -- right. exists rest. simpl. rewrite <- IHd. reflexivity.
Qed.

Lemma fetch_remote env url st response :
  fs env url = None ->
  https_get env url = Response response ->
  failure response = None ->
  ExtractText.fetchFileAsBase64 env url st =
  (Resolved
     {| data := Base64.encode (List.concat (chunks response));
        mediaType :=
          splitHead 59
            match Obj.assoc (headers response) (u16 "content-type") with
            | Some ((_ :: _) as v) => v
            | _ => u16 "image/jpeg"
            end |}, st).
Proof.
  intros Hfs Hget Hok.
  unfold ExtractText.fetchFileAsBase64, existsSync.
  rewrite Hfs, Hget, Hok. reflexivity.
Qed.

(** C7, as the code has it: a completed remote fetch reports the
    [Content-Type] value cut before its first semicolon when the header is
    there and not empty, and [image/jpeg] when the header is absent or
    empty. *)
Theorem remote_media_type_from_content_type :
  forall (env : Env) (url : jsstring) (st : State) (response : IncomingMessage),
    fs env url = None ->
    https_get env url = Response response ->
    failure response = None ->
    exists r : Resource,
      ExtractText.fetchFileAsBase64 env url st = (Resolved r, st)
      /\ data r = Base64.encode (List.concat (chunks response))
      /\ (forall v,
            Obj.assoc (headers response) (u16 "content-type") = Some v ->
            v <> [] ->
            ~ In 59 (mediaType r)
            /\ (v = mediaType r \/ exists rest, v = mediaType r ++ 59 :: rest))
      /\ (Obj.assoc (headers response) (u16 "content-type") = None
          \/ Obj.assoc (headers response) (u16 "content-type") = Some [] ->
          mediaType r = u16 "image/jpeg").
Proof.
  intros env url st response Hfs Hget Hok.
  rewrite (fetch_remote env url st response Hfs Hget Hok).
  eexists. split; [reflexivity|]. split; [reflexivity|]. simpl. split.
  - intros v Hv Hne. rewrite Hv.
    destruct v as [|c v]; [contradiction|].
    apply splitHead_spec.
  - intros [H|H]; rewrite H; reflexivity.
Qed.

Lemma remote_media_type_from_content_type_witness :
  exists r : Resource,
    ExtractText.fetchFileAsBase64
      (Sample.remoteEnv (Some (u16 "image/png; charset=binary")))
      Sample.url State0 = (Resolved r, State0)
    /\ data r =
       Base64.encode
         (List.concat
            (chunks (Sample.response (Some (u16 "image/png; charset=binary")))))
    /\ (forall v,
          Obj.assoc
            (headers (Sample.response (Some (u16 "image/png; charset=binary"))))
            (u16 "content-type") = Some v ->
          v <> [] ->
          ~ In 59 (mediaType r)
          /\ (v = mediaType r \/ exists rest, v = mediaType r ++ 59 :: rest))
    /\ (Obj.assoc
          (headers (Sample.response (Some (u16 "image/png; charset=binary"))))
          (u16 "content-type") = None
        \/ Obj.assoc
             (headers (Sample.response (Some (u16 "image/png; charset=binary"))))
             (u16 "content-type") = Some [] ->
        mediaType r = u16 "image/jpeg").
Proof.
  apply (remote_media_type_from_content_type
           (Sample.remoteEnv (Some (u16 "image/png; charset=binary")))
           Sample.url State0
           (Sample.response (Some (u16 "image/png; charset=binary"))));
    reflexivity.
Defined.

(** C7, as stated, fails on a response whose [Content-Type] header is
    there with an empty value: the value cut before its first semicolon is
    empty, the fetch reports [image/jpeg]. *)
Lemma empty_content_type_reports_jpeg :
  fs (Sample.remoteEnv (Some [])) Sample.url = None
  /\ https_get (Sample.remoteEnv (Some [])) Sample.url =
       Response (Sample.response (Some []))
  /\ Obj.assoc (headers (Sample.response (Some []))) (u16 "content-type") =
       Some []
  /\ splitHead 59 [] = []
  /\ exists r,
      ExtractText.fetchFileAsBase64 (Sample.remoteEnv (Some [])) Sample.url State0 =
        (Resolved r, State0)
      /\ mediaType r = u16 "image/jpeg"
      /\ mediaType r <> splitHead 59 [].
Proof.
  repeat split.
  eexists. split; [reflexivity|]. split; [reflexivity|].
  discriminate.
Qed.

(** ** Field descriptions *)

(** The six names of the table give their descriptions; a name that is
    neither in the table nor a property of [Object.prototype] gives
    itself. *)
Lemma describe_table_or_name :
  ExtractText.describe (u16 "invoiceNumber") =
    Obj.VString (u16 "Invoice number or ID")
  /\ ExtractText.describe (u16 "licensePlate") =
    Obj.VString (u16 "License plate number or vehicle registration")
  /\ ExtractText.describe (u16 "amountDue") =
    Obj.VString (u16 "Amount due (total amount to pay)")
  /\ ExtractText.describe (u16 "dueDate") =
    Obj.VString (u16 "Due date for payment")
  /\ ExtractText.describe (u16 "company") =
    Obj.VString (u16 "Company or organization name")
  /\ ExtractText.describe (u16 "address") = Obj.VString (u16 "Address")
  /\ ExtractText.describe (u16 "vin") = Obj.VString (u16 "vin")
  /\ forall field,
      Obj.assoc ExtractText.descriptions field = None ->
      Obj.objectPrototypeGet field = Obj.VUndefined ->
      ExtractText.describe field = Obj.VString field.
Proof.
  repeat split.
  intros field Hown Hproto.
  unfold ExtractText.describe, Obj.get. rewrite Hown, Hproto. reflexivity.
Qed.

(** C8 at the field name [constructor], which is not in the table: the
    lookup finds the function [Object] on the prototype, so the name is
    not returned and the prompt describes the field with the function's
    source text. *)
Theorem describe_constructor_is_inherited :
  Obj.assoc ExtractText.descriptions (u16 "constructor") = None
  /\ ExtractText.describe (u16 "constructor") =
       Obj.VNativeFunction (u16 "Object")
  /\ ExtractText.describe (u16 "constructor") <>
       Obj.VString (u16 "constructor")
  /\ Obj.joinValues (u16 ", ")
       (map ExtractText.describe [u16 "invoiceNumber"; u16 "constructor"]) =
     u16 "Invoice number or ID, function Object() { [native code] }".
Proof.
  repeat split. discriminate.
Qed.

(** ** The two copies *)

Lemma Part001_recover_run (text : jsstring) (st : State) :
  Part001.recover text st =
  match regexMatch jsonPattern (trim text) with
  | None => (Resolved emptyObject, st)
  | Some m =>
      match JSON.parse m with
      | Resolved parsed => (Resolved parsed, st)
      | Rejected e =>
          (Resolved emptyObject,
           {| requests := requests st;
              console := console st
                         ++ [(u16 "Failed to parse structured data:", e)] |})
      end
  end.
Proof.
  unfold Part001.recover, bind, tryCatch, lift, ret, console_error.
  cbv zeta.
  destruct (regexMatch jsonPattern (trim text)) as [m|]; [|reflexivity].
  destruct (JSON.parse m); reflexivity.
Qed.

Lemma recover_copies_agree (text : jsstring) (s1 s2 : State) :
  fst (ExtractText.recover text s1) = fst (Part001.recover text s2).
Proof.
  rewrite recover_run, Part001_recover_run.
  destruct (regexMatch jsonPattern (trim text)) as [m|]; [|reflexivity].
  destruct (JSON.parse m); reflexivity.
Qed.

Lemma describe_copies_agree (field : jsstring) :
  ExtractText.describe field = Part001.describe field.
Proof. reflexivity. Qed.

Lemma fetch_copies_agree (env : Env) (identifier : jsstring) (st : State) :
  agreeUpToPdf
    (existsSync env identifier
     && streq (toLowerCase (Path.extname identifier)) (u16 ".pdf"))
    (ExtractText.fetchFileAsBase64 env identifier st)
    (Part001.fetchImageAsBase64 env identifier st).
Proof.
  unfold ExtractText.fetchFileAsBase64, Part001.fetchImageAsBase64,
    bind, lift, ret, throw.
  destruct (existsSync env identifier); simpl andb.
  - destruct (readFileSync env identifier) as [bytes|e]; simpl;
      [|split; reflexivity].
    split; [reflexivity|]. split; [reflexivity|].
    destruct (streq (toLowerCase (Path.extname identifier)) (u16 ".pdf")) eqn:E.
    + apply streq_eq in E. rewrite E. split; reflexivity.
    + reflexivity.
  - destruct (https_get env identifier) as [e|response]; simpl;
      [split; reflexivity|].
    destruct (failure response); simpl; [split; reflexivity|].
    repeat split.
Qed.

(** C2, as the code has it: on every identifier the two copies settle
    alike, with the same data, and with the same media type except on a
    local path whose lower-cased extension is [.pdf], where the copy in
    [extractText.ts] reports [application/pdf] and the older copy
    [image/jpeg]; and against a model client that gives one fixed answer,
    [extractText] and [extractStructuredData] of the two copies settle
    with the same string and the same mapping, for every field list. *)
Theorem copies_agree_up_to_pdf :
  forall (env : Env) (identifier : jsstring) (st : State),
    agreeUpToPdf
      (existsSync env identifier
       && streq (toLowerCase (Path.extname identifier)) (u16 ".pdf"))
      (ExtractText.fetchFileAsBase64 env identifier st)
      (Part001.fetchImageAsBase64 env identifier st)
    /\ forall (fields : option (list jsstring)) (answer : Outcome Message.t),
        fst (ExtractText.extractText (withReply env answer) identifier st) =
        fst (Part001.extractText (withReply env answer) identifier st)
        /\ fst (ExtractText.extractStructuredData
                  (withReply env answer) identifier fields st) =
           fst (Part001.extractStructuredData
                  (withReply env answer) identifier fields st).
Proof.
  intros env identifier st. split; [apply fetch_copies_agree|].
  intros fields answer.
  pose proof (fetch_copies_agree (withReply env answer) identifier st) as H.
  unfold ExtractText.extractText, Part001.extractText,
    ExtractText.extractStructuredData, Part001.extractStructuredData, bind.
  destruct (ExtractText.fetchFileAsBase64 (withReply env answer) identifier st)
    as [[r1|e1] s1];
  destruct (Part001.fetchImageAsBase64 (withReply env answer) identifier st)
    as [[r2|e2] s2];
  simpl in H; try contradiction.
  - cbv zeta. unfold client_messages_create. simpl messages_create.
    destruct answer as [response|e]; [|split; reflexivity].
    destruct (find isText (Message.content response)) as [[]|];
      try (split; reflexivity).
    split; [reflexivity|]. apply recover_copies_agree.
  - destruct H as [-> _]. split; reflexivity.
Qed.

(** C2, as stated, fails on an uploaded [.PDF]: the copies report
    different media types, so their resources differ. *)
Lemma copies_differ_on_pdf :
  (exists data,
      fst (ExtractText.fetchFileAsBase64 Sample.localEnv Sample.pdfPath State0) =
        Resolved {| data := data; mediaType := u16 "application/pdf" |}
      /\ fst (Part001.fetchImageAsBase64 Sample.localEnv Sample.pdfPath State0) =
        Resolved {| data := data; mediaType := u16 "image/jpeg" |})
  /\ fst (ExtractText.fetchFileAsBase64 Sample.localEnv Sample.pdfPath State0) <>
     fst (Part001.fetchImageAsBase64 Sample.localEnv Sample.pdfPath State0).
Proof.
  split.
  - exists (Base64.encode Sample.pdfBytes). split; vm_compute; reflexivity.
  - intros H. vm_compute in H. discriminate.
Qed.

(** * Further properties *)

(** ** Failures of the fetch and of the model *)

(** X1: the fetch rejects in exactly three situations, each time with the
    error the world gave: the path exists but cannot be read (there is no
    fall-back to the network), the request fails, or the response stream
    fails before it ends. *)
Theorem fetch_rejects_iff :
  forall (env : Env) (identifier : jsstring) (st : State) (e : JsError),
    fst (ExtractText.fetchFileAsBase64 env identifier st) = Rejected e
    <-> (fs env identifier = Some (Unreadable e)
         \/ (fs env identifier = None
             /\ (https_get env identifier = RequestError e
                 \/ exists response,
                     https_get env identifier = Response response
                     /\ failure response = Some e))).
Proof.
  intros env identifier st e.
  unfold ExtractText.fetchFileAsBase64, existsSync, readFileSync,
    bind, lift, ret, throw.
  destruct (fs env identifier) as [[bytes|e']|] eqn:Hfs; simpl.
  - split; [discriminate|].
    intros [H|[H _]]; discriminate.
  - split.
    + intros H. injection H as ->. left. reflexivity.
    + intros [H|[H _]]; [injection H as ->; reflexivity | discriminate].
  - destruct (https_get env identifier) as [e'|response] eqn:Hget; simpl.
    + split.
      * intros H. injection H as ->. right. split; [reflexivity|].
        left. reflexivity.
      * intros [H|[_ [H|(response & H & _)]]]; try discriminate.
        injection H as ->. reflexivity.
    + destruct (failure response) as [e'|] eqn:Hfail; simpl.
      * split.
        -- intros H. injection H as ->. right. split; [reflexivity|].
           right. exists response. split; [reflexivity | exact Hfail].
        -- intros [H|[_ [H|(response' & H & Hf)]]]; try discriminate.
           injection H as <-. rewrite Hfail in Hf. injection Hf as ->.
           reflexivity.
      * split; [discriminate|].
        intros [H|[_ [H|(response' & H & Hf)]]]; try discriminate.
        injection H as <-. rewrite Hfail in Hf. discriminate.
Qed.

(** X2: when the fetch rejects, both operations reject with the same
    error and leave the state as it was: no request reaches the model and
    nothing is written to the console. *)
Theorem fetch_failure_stops_before_the_model :
  forall (env : Env) (filePath : jsstring) (fields : option (list jsstring))
         (st : State) (e : JsError),
    fst (ExtractText.fetchFileAsBase64 env filePath st) = Rejected e ->
    ExtractText.extractText env filePath st = (Rejected e, st)
    /\ ExtractText.extractStructuredData env filePath fields st = (Rejected e, st).
Proof.
  intros env filePath fields st e H.
  destruct (ExtractText.fetchFileAsBase64 env filePath st) as [o st'] eqn:Hf.
  simpl in H. subst o. split.
  - exact (extractText_fetch_rejected env filePath st e st' Hf).
  - exact (extractStructuredData_fetch_rejected env filePath fields st e st' Hf).
Qed.

Lemma fetch_failure_stops_before_the_model_witness :
  ExtractText.extractText Sample2.directoryEnv (u16 "/uploads") State0 =
    (Rejected Sample2.eisdir, State0)
  /\ ExtractText.extractStructuredData
       Sample2.directoryEnv (u16 "/uploads") None State0 =
     (Rejected Sample2.eisdir, State0).
Proof.
  apply (fetch_failure_stops_before_the_model
           Sample2.directoryEnv (u16 "/uploads") None State0 Sample2.eisdir).
  reflexivity.
Defined.

(** X3: when the resource was fetched and the client rejects the request
    that carries it, both operations reject with the client's error, after
    exactly one request and without a line on the console. *)
Theorem model_failure_is_propagated :
  forall (env : Env) (filePath : jsstring) (fields : option (list jsstring))
         (st st' : State) (r : Resource) (e : JsError),
    ExtractText.fetchFileAsBase64 env filePath st = (Resolved r, st') ->
    (forall q, carriesResource q r -> messages_create env q = Rejected e) ->
    (exists q,
        ExtractText.extractText env filePath st = (Rejected e, logged st q))
    /\ (exists q,
        ExtractText.extractStructuredData env filePath fields st =
          (Rejected e, logged st q)).
Proof.
  intros env filePath fields st st' r e Hfetch Hfail. split.
  - destruct (extractText_run env filePath st r st' Hfetch) as (q & Hq & Hrun).
    exists q. rewrite Hrun, (Hfail q Hq). reflexivity.
  - destruct (extractStructuredData_run env filePath fields st r st' Hfetch)
      as (q & Hq & Hrun).
    exists q. rewrite Hrun, (Hfail q Hq). reflexivity.
Qed.

Lemma model_failure_is_propagated_witness :
  (exists q,
      ExtractText.extractText
        (withReply Sample.localEnv (Rejected Sample2.overloaded))
        Sample.pdfPath State0 = (Rejected Sample2.overloaded, logged State0 q))
  /\ (exists q,
      ExtractText.extractStructuredData
        (withReply Sample.localEnv (Rejected Sample2.overloaded))
        Sample.pdfPath None State0 =
        (Rejected Sample2.overloaded, logged State0 q)).
Proof.
  apply (model_failure_is_propagated
           (withReply Sample.localEnv (Rejected Sample2.overloaded))
           Sample.pdfPath None State0 State0
           {| data := Base64.encode Sample.pdfBytes;
              mediaType := u16 "application/pdf" |}
           Sample2.overloaded eq_refl (fun _ _ => eq_refl)).
Defined.

(** ** What a run leaves behind *)



(** ** Prose around the object *)

Lemma trimStart_keeps (pre rest : jsstring) (c : char16) :
  isWhiteSpace c = false ->
  trimStart (pre ++ c :: rest) = trimStart pre ++ c :: rest.
Proof.
  intros Hc. induction pre as [|x pre IH]; simpl.
  - rewrite Hc. reflexivity.
  - destruct (isWhiteSpace x); [exact IH | reflexivity].
Qed.

Lemma trimEnd_keeps (s post : jsstring) (c : char16) :
  isWhiteSpace c = false ->
  trimEnd (s ++ c :: post) = s ++ c :: trimEnd post.
Proof.
  intros Hc. induction s as [|x s IH]; simpl.
  - destruct (trimEnd post); [rewrite Hc|]; reflexivity.
  - rewrite IH. destruct s; reflexivity.
Qed.

Lemma trimStart_In (c : char16) (s : jsstring) :
  In c (trimStart s) -> In c s.
Proof.
  induction s as [|x s IH]; simpl; [tauto|].
  destruct (isWhiteSpace x); [intros H; right; exact (IH H) | tauto].
Qed.

Lemma trimEnd_In (c : char16) (s : jsstring) :
  In c (trimEnd s) -> In c s.
Proof.
  induction s as [|x s IH]; simpl; [tauto|].
  destruct (trimEnd s) as [|y r].
  - destruct (isWhiteSpace x); simpl; tauto.
  - intros [H|H]; [left; exact H | right; exact (IH H)].
Qed.

(** Trimming stops at the braces. *)
Lemma trim_around (pre mid post : jsstring) :
  trim (pre ++ 123 :: mid ++ 125 :: post) =
  trimStart pre ++ 123 :: mid ++ 125 :: trimEnd post.
Proof.
  unfold trim. rewrite (trimStart_keeps _ _ _ (eq_refl : isWhiteSpace 123 = false)).
  pose proof (trimEnd_keeps (trimStart pre ++ 123 :: mid) post 125 eq_refl) as H.
  rewrite <- !app_assoc in H. simpl in H. exact H.
Qed.

(** X5: text before the object without an opening brace and text after it
    without a closing brace never change the recovery: the object between
    the first opening and the last closing brace is what [JSON.parse]
    gets, nested braces included, and a reply that is only the object is
    parsed whole. *)
Theorem recovery_ignores_brace_free_prose :
  forall (pre mid post : jsstring) (st : State),
    ~ In 123 pre ->
    ~ In 125 post ->
    ExtractText.recover (pre ++ 123 :: mid ++ 125 :: post) st =
      ExtractText.recover (123 :: mid ++ [125]) st
    /\ fst (ExtractText.recover (123 :: mid ++ [125]) st) =
       match JSON.parse (123 :: mid ++ [125]) with
       | Resolved parsed => Resolved parsed
       | Rejected _ => Resolved emptyObject
       end.
Proof.
  intros pre mid post st Hpre Hpost.
  assert (Hwhole : regexMatch jsonPattern (trim (123 :: mid ++ [125])) =
                   Some (123 :: mid ++ [125])).
  { transitivity (regexMatch jsonPattern (123 :: mid ++ [125])).
    - f_equal. exact (trim_around [] mid []).
    - apply (regexMatch_complete [] mid []); simpl; tauto. }
  assert (Hspan : regexMatch jsonPattern (trim (pre ++ 123 :: mid ++ 125 :: post)) =
                  Some (123 :: mid ++ [125])).
  { transitivity
      (regexMatch jsonPattern (trimStart pre ++ 123 :: mid ++ 125 :: trimEnd post)).
    { f_equal. exact (trim_around pre mid post). }
    apply regexMatch_complete.
    - intros H. apply Hpre. exact (trimStart_In 123 pre H).
    - intros H. apply Hpost. exact (trimEnd_In 125 post H). }
  rewrite !recover_run, Hspan, Hwhole. split; [reflexivity|].
  destruct (JSON.parse (123 :: mid ++ [125])); reflexivity.
Qed.

Lemma recovery_ignores_brace_free_prose_witness :
  ExtractText.recover
    (u16 "Sure! Here it is: "
     ++ 123 :: u16 "'amountDue':'42.50','line':{'n':1}" ++ 125 :: u16 " Done.")
    State0 =
    ExtractText.recover
      (123 :: u16 "'amountDue':'42.50','line':{'n':1}" ++ [125]) State0
  /\ fst (ExtractText.recover
            (123 :: u16 "'amountDue':'42.50','line':{'n':1}" ++ [125]) State0) =
     match JSON.parse (123 :: u16 "'amountDue':'42.50','line':{'n':1}" ++ [125]) with
     | Resolved parsed => Resolved parsed
     | Rejected _ => Resolved emptyObject
     end.
Proof.
  apply (recovery_ignores_brace_free_prose
           (u16 "Sure! Here it is: ")
           (u16 "'amountDue':'42.50','line':{'n':1}")
           (u16 " Done.") State0).
  - cbv. intuition discriminate.
  - cbv. intuition discriminate.
Defined.

(** ** The shape of the result *)

Lemma recover_object (text : jsstring) (st : State) (v : JSON.value) :
  fst (ExtractText.recover text st) = Resolved v ->
  exists props, v = JSON.JObject props.
Proof.
  rewrite recover_run.
  destruct (regexMatch jsonPattern (trim text)) as [span|] eqn:Hs.
  - destruct (regexMatch_some (trim text) span Hs)
      as (pre & mid & post & _ & Hm & _).
    subst span.
    destruct (JSON.parse (123 :: mid ++ [125])) as [parsed|e] eqn:Hp; simpl.
    + intros H. injection H as <-.
      exact (parse_brace_object (mid ++ [125]) parsed Hp).
    + intros H. injection H as <-. exists []. reflexivity.
  - simpl. intros H. injection H as <-. exists []. reflexivity.
Qed.

(** X6: whenever [extractStructuredData] resolves, it resolves with an
    object: the model cannot make it return an array, a string, a number,
    a boolean or [null], since the span starts with a brace and every
    fall-back is the empty object. *)
Theorem structured_result_is_an_object :
  forall (env : Env) (filePath : jsstring) (fields : option (list jsstring))
         (st : State) (v : JSON.value),
    fst (ExtractText.extractStructuredData env filePath fields st) = Resolved v ->
    exists props, v = JSON.JObject props.
Proof.
  intros env filePath fields st v.
  destruct (ExtractText.fetchFileAsBase64 env filePath st) as [[r|e] st'] eqn:Hf.
  - destruct (extractStructuredData_run env filePath fields st r st' Hf)
      as (q & _ & Hrun).
    rewrite Hrun.
    destruct (messages_create env q) as [response|e]; [|discriminate].
    destruct (firstText response) as [text|].
    + apply recover_object.
    + simpl. intros H. injection H as <-. exists []. reflexivity.
  - rewrite (extractStructuredData_fetch_rejected env filePath fields st e st' Hf).
    discriminate.
Qed.

Lemma structured_result_is_an_object_witness :
  exists props, Sample.invoice = JSON.JObject props.
Proof.
  apply (structured_result_is_an_object
           Sample.localEnv Sample.pdfPath None State0 Sample.invoice).
  vm_compute. reflexivity.
Defined.

(** ** Edge cases of the remote media type *)

Lemma splitHead_nil_iff (sep : char16) (v : jsstring) :
  splitHead sep v = [] <-> v = [] \/ exists rest, v = sep :: rest.
Proof.
  destruct v as [|c v]; simpl.
  - split; [left; reflexivity | reflexivity].
  - destruct (c =? sep) eqn:Hc.
    + apply N.eqb_eq in Hc. subst c.
      split; [right; exists v; reflexivity | reflexivity].
    + apply N.eqb_neq in Hc. split; [discriminate|].
      intros [H|[rest H]]; [discriminate|].
      injection H as H _. contradiction.
Qed.

(** X7: a completed remote fetch never reports a media type with a
    semicolon in it, and reports the empty media type exactly when the
    [Content-Type] value begins with a semicolon. *)
Theorem remote_media_type_edges :
  forall (env : Env) (url : jsstring) (st : State) (response : IncomingMessage),
    fs env url = None ->
    https_get env url = Response response ->
    failure response = None ->
    exists r : Resource,
      ExtractText.fetchFileAsBase64 env url st = (Resolved r, st)
      /\ ~ In 59 (mediaType r)
      /\ (mediaType r = []
          <-> exists rest,
              Obj.assoc (headers response) (u16 "content-type") =
              Some (59 :: rest)).
Proof.
  intros env url st response Hfs Hget Hok.
  rewrite (fetch_remote env url st response Hfs Hget Hok).
  eexists. split; [reflexivity|]. simpl mediaType.
  split; [apply splitHead_spec|].
  destruct (Obj.assoc (headers response) (u16 "content-type")) as [[|c v]|].
  - split; [discriminate|]. intros [rest H]. discriminate.
  - rewrite splitHead_nil_iff. split.
    + intros [H|[rest H]]; [discriminate|].
      exists rest. rewrite H. reflexivity.
    + intros [rest H]. right. exists rest. injection H as -> ->. reflexivity.
  - split; [discriminate|]. intros [rest H]. discriminate.
Qed.

Lemma remote_media_type_edges_witness :
  exists r : Resource,
    ExtractText.fetchFileAsBase64
      (Sample.remoteEnv (Some (u16 ";charset=utf-8"))) Sample.url State0 =
      (Resolved r, State0)
    /\ ~ In 59 (mediaType r)
    /\ (mediaType r = []
        <-> exists rest,
            Obj.assoc (headers (Sample.response (Some (u16 ";charset=utf-8"))))
              (u16 "content-type") = Some (59 :: rest)).
Proof.
  apply (remote_media_type_edges
           (Sample.remoteEnv (Some (u16 ";charset=utf-8"))) Sample.url State0
           (Sample.response (Some (u16 ";charset=utf-8"))));
    reflexivity.
Defined.

(** ** The older copy's requests *)

Lemma fetchImageAsBase64_state env imagePath st :
  snd (Part001.fetchImageAsBase64 env imagePath st) = st.
Proof.
  unfold Part001.fetchImageAsBase64, bind, lift, ret, throw.
  destruct (existsSync env imagePath).
  - destruct (readFileSync env imagePath); reflexivity.
  - destruct (https_get env imagePath) as [e|response]; [reflexivity|].
    destruct (failure response); reflexivity.
Qed.

(** X8: the older copy never sends a document block.  Once the resource
    is fetched, each of its operations sends one request whose first block
    is typed ["image"] and carries the fetched media type and data, also
    when that media type is [application/pdf]. *)
Theorem older_copy_always_sends_image :
  forall (env : Env) (imagePath : jsstring) (fields : option (list jsstring))
         (st st' : State) (r : Resource),
    Part001.fetchImageAsBase64 env imagePath st = (Resolved r, st') ->
    (exists q,
        requests (snd (Part001.extractText env imagePath st)) = requests st ++ [q]
        /\ carriesAsImage q r)
    /\ (exists q,
        requests (snd (Part001.extractStructuredData env imagePath fields st)) =
          requests st ++ [q]
        /\ carriesAsImage q r).
Proof.
  intros env imagePath fields st st' r H.
  assert (st' = st) as ->.
  { rewrite <- (fetchImageAsBase64_state env imagePath st), H. reflexivity. }
  unfold Part001.extractText, Part001.extractStructuredData, bind.
  rewrite H. cbv zeta. unfold client_messages_create. split.
  - match goal with |- context [messages_create env ?q] => exists q end.
    split; [|eexists; reflexivity].
    match goal with |- context [messages_create env ?q] =>
      destruct (messages_create env q) as [response|e] end; [|reflexivity].
    destruct (find isText (Message.content response)) as [[]|]; reflexivity.
  - match goal with |- context [messages_create env ?q] => exists q end.
    split; [|eexists; reflexivity].
    match goal with |- context [messages_create env ?q] =>
      destruct (messages_create env q) as [response|e] end; [|reflexivity].
    destruct (find isText (Message.content response)) as [[]|];
      try reflexivity.
    rewrite Part001_recover_run.
    destruct (regexMatch jsonPattern (trim text)) as [m|]; [|reflexivity].
    destruct (JSON.parse m); reflexivity.
Qed.

Lemma older_copy_always_sends_image_witness :
  (exists q,
      requests (snd (Part001.extractText
                       (Sample.remoteEnv (Some (u16 "application/pdf")))
                       Sample.url State0)) = requests State0 ++ [q]
      /\ carriesAsImage q
           {| data := u16 "/9j/"; mediaType := u16 "application/pdf" |})
  /\ (exists q,
      requests (snd (Part001.extractStructuredData
                       (Sample.remoteEnv (Some (u16 "application/pdf")))
                       Sample.url None State0)) = requests State0 ++ [q]
      /\ carriesAsImage q
           {| data := u16 "/9j/"; mediaType := u16 "application/pdf" |}).
Proof.
  apply (older_copy_always_sends_image
           (Sample.remoteEnv (Some (u16 "application/pdf")))
           Sample.url None State0 State0).
  reflexivity.
Defined.

(** ** Prompt entries *)

Lemma truthy_joinItem (v : Obj.jsval) :
  Obj.truthy v = true -> Obj.joinItem v <> [].
Proof.
  destruct v as [|[|c s]|name|]; simpl; try discriminate.
Qed.

(** X9: the entry a field name contributes to the prompt is empty only
    for the empty field name; every other name contributes its
    description, the text of an inherited property, or itself. *)
Theorem prompt_entry_empty_iff :
  forall field : jsstring,
    Obj.joinItem (ExtractText.describe field) = [] <-> field = [].
Proof.
  intros field. unfold ExtractText.describe, Obj.or.
  destruct (Obj.truthy (Obj.get ExtractText.descriptions field)) eqn:Ht.
  - split.
    + intros H. exfalso. exact (truthy_joinItem _ Ht H).
    + intros ->. discriminate.
  - simpl. tauto.
Qed.

(** ** The upload filter and the extraction route *)

Lemma startsWith_spec (s prefix : jsstring) :
  Server.startsWith s prefix = true <-> exists rest, s = prefix ++ rest.
Proof.
  revert s; induction prefix as [|p prefix IH]; intros s.
  - split; [intros _; exists s; reflexivity|].
    intros _. destruct s; reflexivity.
  - destruct s as [|c s]; simpl;
      [split; [discriminate | intros [rest H]; discriminate]|].
    rewrite andb_true_iff, N.eqb_eq, IH. split.
    + intros [-> [rest ->]]. exists rest. reflexivity.
    + intros [rest H]. injection H as -> ->. split; [reflexivity|].
      exists rest. reflexivity.
Qed.

(** X10: the upload filter accepts a file exactly when its declared MIME
    type begins with [image/], in this letter case; every other file is
    refused with one fixed error, which the error middleware answers with
    status 400 and that message. *)
Theorem upload_filter_accepts_image_types :
  forall file : Server.File,
    (Server.fileFilter file = Resolved true
     <-> exists rest, Server.mimetype file = u16 "image/" ++ rest)
    /\ (Server.fileFilter file = Resolved true
        \/ exists e,
            Server.fileFilter file = Rejected e
            /\ Server.errorMiddleware (Server.OtherError e) =
               Server.errorReply 400 (u16 "Only image files are allowed")).
Proof.
  intros file. unfold Server.fileFilter.
  destruct (Server.startsWith (Server.mimetype file) (u16 "image/")) eqn:Hs.
  - split; [|left; reflexivity].
    split; [intros _; apply startsWith_spec; exact Hs | reflexivity].
  - split.
    + split; [discriminate|].
      intros H. apply startsWith_spec in H. congruence.
    + right. eexists. split; reflexivity.
Qed.

(** X11: the text extraction route.  Without a file it answers 400 and
    touches nothing.  With a file it hands the file's path to [fs.unlink]
    exactly once, whether the extraction resolved or rejected; it answers
    200 with the extracted text in the first case and 500 with the error's
    message in the second, and sends the model what [extractText] sends. *)
Theorem extract_route_cleans_up :
  forall (env : Env) (unlinkResult : jsstring -> option JsError)
         (req : Server.Request) (s : Server.ServerState),
    match Server.file req with
    | None =>
        Server.extractRoute env unlinkResult req s =
        (Server.errorReply 400 (u16 "No image file provided"), s)
    | Some filePath =>
        Server.unlinked (snd (Server.extractRoute env unlinkResult req s)) =
          Server.unlinked s ++ [filePath]
        /\ requests (Server.core (snd (Server.extractRoute env unlinkResult req s))) =
           requests (snd (ExtractText.extractText env filePath (Server.core s)))
        /\ (forall text,
              fst (ExtractText.extractText env filePath (Server.core s)) =
                Resolved text ->
              fst (Server.extractRoute env unlinkResult req s) =
              {| Server.status := 200;
                 Server.body :=
                   JSON.JObject [(u16 "text", JSON.JString text)] |})
        /\ (forall name message,
              fst (ExtractText.extractText env filePath (Server.core s)) =
                Rejected (MkError name message) ->
              fst (Server.extractRoute env unlinkResult req s) =
              Server.errorReply 500 message)
    end.
Proof.
  intros env unlinkResult req s. unfold Server.extractRoute.
  destruct (Server.file req) as [filePath|]; [|reflexivity].
  destruct (ExtractText.extractText env filePath (Server.core s))
    as [[text|[name message]] st'];
    unfold Server.unlink; simpl;
    (split; [reflexivity|]);
    (split; [destruct (unlinkResult filePath); reflexivity|]);
    split; intros; try discriminate.
  - injection H as ->. reflexivity.
  - injection H as -> ->. reflexivity.
Qed.

(** ** [path.extname] and the name of a stored upload *)

(** One turn of the loop on a character that is not a slash. *)
Lemma extnameLoop_char (c : char16) (rest : jsstring) (i : Z) (st : Path.scan) :
  (c =? 47) = false ->
  exists st2,
    Path.extnameLoop (c :: rest) i st = Path.extnameLoop rest (i - 1) st2
    /\ Path.end_ st2 = (if (Path.end_ st =? -1)%Z then (i + 1)%Z else Path.end_ st)
    /\ Path.startDot st2 =
       (if (c =? 46) && (Path.startDot st =? -1)%Z then i else Path.startDot st)
    /\ Path.matchedSlash st2 =
       (if (Path.end_ st =? -1)%Z then false else Path.matchedSlash st)
    /\ Path.startPart st2 = Path.startPart st
    /\ Path.preDotState st2 =
       (if (Path.startDot st =? -1)%Z then Path.preDotState st
        else if c =? 46 then 1%Z else (-1)%Z).
Proof.
  intros Hc. destruct st as [sd sp en ms pd]. simpl. rewrite Hc.
  destruct (en =? -1)%Z; destruct (c =? 46); simpl;
    destruct (sd =? -1)%Z eqn:Hsd; simpl;
    try (destruct (pd =? 1)%Z eqn:Hpd; simpl;
         [apply Z.eqb_eq in Hpd; subst pd|]);
    eexists; (split; [reflexivity|]); simpl; repeat split.
Qed.

(** One turn of the loop on a slash. *)
Lemma extnameLoop_slash (rest : jsstring) (i : Z) (st : Path.scan) :
  Path.extnameLoop (47 :: rest) i st =
  if negb (Path.matchedSlash st)
  then {| Path.startDot := Path.startDot st; Path.startPart := (i + 1)%Z;
          Path.end_ := Path.end_ st; Path.matchedSlash := Path.matchedSlash st;
          Path.preDotState := Path.preDotState st |}
  else Path.extnameLoop rest (i - 1) st.
Proof. reflexivity. Qed.

Lemma slice_middle (p e tail : jsstring) :
  slice (p ++ 46 :: e ++ tail) (List.length p) (List.length p + 1 + List.length e) =
  46 :: e.
Proof.
  unfold slice.
  rewrite skipn_app, skipn_all, Nat.sub_diag. simpl skipn. simpl app.
  replace (List.length p + 1 + List.length e - List.length p)%nat
    with (S (List.length e)) by lia.
  simpl. f_equal.
  rewrite firstn_app, firstn_all, Nat.sub_diag. simpl. apply app_nil_r.
Qed.

(** Arithmetic on positions in a string. *)
Ltac zlia := simpl List.length in *; unfold jsstring, char16 in *; lia.

(** What the loop has seen of the path so far, [suffix], against its
    state: nothing but slashes; or plain characters up to [end]; or a dot
    followed by plain characters up to [end]. *)
Lemma extnameLoop_shape (rest : jsstring) :
  forall (suffix : jsstring) (st : Path.scan),
    (Path.end_ st <> (-1)%Z -> Path.matchedSlash st = false) ->
    ((Path.end_ st = (-1)%Z /\ Path.startDot st = (-1)%Z)
     \/ (Path.startDot st = (-1)%Z
         /\ exists mid tail,
             suffix = mid ++ tail
             /\ Path.end_ st =
                (Z.of_nat (List.length rest) + Z.of_nat (List.length mid))%Z
             /\ plain mid)
     \/ (exists a e tail,
            suffix = a ++ 46 :: e ++ tail
            /\ Path.startDot st =
               (Z.of_nat (List.length rest) + Z.of_nat (List.length a))%Z
            /\ Path.end_ st =
               (Z.of_nat (List.length rest) + Z.of_nat (List.length a) + 1
                + Z.of_nat (List.length e))%Z
            /\ plain e)) ->
    forall st',
      st' = Path.extnameLoop rest (Z.of_nat (List.length rest) - 1) st ->
      Path.startDot st' = (-1)%Z \/ Path.end_ st' = (-1)%Z
      \/ exists e,
          slice (rev rest ++ suffix)
            (Z.to_nat (Path.startDot st')) (Z.to_nat (Path.end_ st')) = 46 :: e
          /\ plain e.
Proof.
  assert (Hdone : forall (rest suffix : jsstring) (sd en : Z),
    ((en = (-1)%Z /\ sd = (-1)%Z)
     \/ (sd = (-1)%Z
         /\ exists mid tail,
             suffix = mid ++ tail
             /\ en = (Z.of_nat (List.length rest) + Z.of_nat (List.length mid))%Z
             /\ plain mid)
     \/ (exists a e tail,
            suffix = a ++ 46 :: e ++ tail
            /\ sd = (Z.of_nat (List.length rest) + Z.of_nat (List.length a))%Z
            /\ en = (Z.of_nat (List.length rest) + Z.of_nat (List.length a) + 1
                     + Z.of_nat (List.length e))%Z
            /\ plain e)) ->
    sd = (-1)%Z \/ en = (-1)%Z
    \/ exists e,
        slice (rev rest ++ suffix) (Z.to_nat sd) (Z.to_nat en) = 46 :: e
        /\ plain e).
  { intros rest0 suffix sd en [[He _]|[[Hs _]|(a & e & tail & -> & -> & -> & He)]].
    - right. left. exact He.
    - left. exact Hs.
    - right. right. exists e. split; [|exact He].
      rewrite app_assoc.
      replace (Z.to_nat (Z.of_nat (List.length rest0) + Z.of_nat (List.length a)))
        with (List.length (rev rest0 ++ a))
        by (rewrite length_app, length_rev; unfold jsstring, char16; lia).
      replace (Z.to_nat (Z.of_nat (List.length rest0) + Z.of_nat (List.length a) + 1
                         + Z.of_nat (List.length e)))
        with (List.length (rev rest0 ++ a) + 1 + List.length e)%nat
        by (rewrite length_app, length_rev; unfold jsstring, char16; lia).
      apply slice_middle. }
  induction rest as [|c rest IH]; intros suffix st Hms Hinv st' ->.
  - simpl Path.extnameLoop. apply (Hdone [] suffix). exact Hinv.
  - replace (Z.of_nat (List.length (c :: rest)) - 1)%Z
      with (Z.of_nat (List.length rest))
      by (simpl List.length; zlia).
    assert (Hpath : rev (c :: rest) ++ suffix = rev rest ++ c :: suffix).
    { simpl. rewrite <- app_assoc. reflexivity. }
    destruct (c =? 47) eqn:Hc.
    + apply N.eqb_eq in Hc. subst c. rewrite extnameLoop_slash.
      destruct (Path.matchedSlash st) eqn:Hm; simpl negb; cbv iota.
      * rewrite Hpath.
        assert (He : Path.end_ st = (-1)%Z).
        { destruct (Z.eq_dec (Path.end_ st) (-1)) as [E|E]; [exact E|].
          apply Hms in E. discriminate. }
        apply (IH (47 :: suffix) st);
          [intros E; contradiction | | f_equal; zlia].
        left. split; [exact He|].
        destruct Hinv as [[_ Hs]|[[Hs _]|(a & e & tail & _ & _ & Hen & _)]];
          [exact Hs | exact Hs | exfalso; zlia].
      * simpl. apply (Hdone (47 :: rest) suffix). exact Hinv.
    + destruct (extnameLoop_char c rest (Z.of_nat (List.length rest)) st Hc)
        as (st2 & Hrun & Hen & Hsd & Hms2 & _ & _).
      rewrite Hrun, Hpath.
      apply (IH (c :: suffix) st2); [ | | reflexivity].
      * rewrite Hen, Hms2.
        destruct (Path.end_ st =? -1)%Z eqn:E; [reflexivity|].
        intros _. apply Hms. apply Z.eqb_neq. exact E.
      * rewrite Hen, Hsd.
        destruct Hinv
          as [[He Hs]|[[Hs (mid & tail & -> & He & Hmid)]
                      |(a & e & tail & -> & Hs & He & Hplain)]].
        -- rewrite He, Hs. simpl Z.eqb. cbv iota. rewrite andb_true_r.
           destruct (c =? 46) eqn:Hdot.
           ++ apply N.eqb_eq in Hdot. subst c.
              right. right. exists [], [], suffix.
              repeat split; simpl; try zlia; tauto.
           ++ apply N.eqb_neq in Hdot. apply N.eqb_neq in Hc.
              right. left. split; [reflexivity|].
              exists [c], suffix. repeat split; simpl; zlia.
        -- rewrite Hs. simpl (_ =? _)%Z. rewrite andb_true_r.
           assert (E : (Path.end_ st =? -1)%Z = false) by (apply Z.eqb_neq; zlia).
           rewrite E.
           destruct (c =? 46) eqn:Hdot.
           ++ apply N.eqb_eq in Hdot. subst c.
              right. right. exists [], mid, tail.
              repeat split; simpl; try zlia; apply Hmid.
           ++ apply N.eqb_neq in Hdot. apply N.eqb_neq in Hc.
              right. left. split; [reflexivity|].
              exists (c :: mid), tail. destruct Hmid as [Hm1 Hm2].
              repeat split; simpl; try zlia;
                intros [H|H]; solve [congruence | contradiction].
        -- assert (E1 : (Path.end_ st =? -1)%Z = false) by (apply Z.eqb_neq; zlia).
           assert (E2 : (Path.startDot st =? -1)%Z = false) by (apply Z.eqb_neq; zlia).
           rewrite E1, E2, andb_false_r.
           right. right. exists (c :: a), e, tail.
           repeat split; simpl; try zlia; apply Hplain.
Qed.

(** [path.extname] gives the empty string, or a dot followed by characters
    that are neither dots nor slashes. *)
Lemma extname_shape (p : jsstring) :
  Path.extname p = [] \/ exists e, Path.extname p = 46 :: e /\ plain e.
Proof.
  unfold Path.extname.
  pose proof (extnameLoop_shape (rev p) [] Path.scan0) as H.
  rewrite length_rev, rev_involutive, app_nil_r in H.
  assert (Hms : Path.end_ Path.scan0 <> (-1)%Z ->
                Path.matchedSlash Path.scan0 = false).
  { intros E. exfalso. apply E. reflexivity. }
  specialize (H Hms (or_introl (conj eq_refl eq_refl)) _ eq_refl).
  cbv zeta.
  destruct H as [H|[H|(e & H & He)]].
  - rewrite H. simpl. left. reflexivity.
  - rewrite H. rewrite Z.eqb_refl, orb_true_r. left. reflexivity.
  - match goal with |- (if ?b then _ else _) = _ \/ _ => destruct b end.
    + left. reflexivity.
    + right. exists e. split; [exact H | exact He].
Qed.

(** Plain characters met after [end] is set and before any dot leave the
    state alone. *)
Lemma extnameLoop_plain (re : jsstring) :
  forall (rest : jsstring) (i : Z) (st : Path.scan),
    plain re ->
    Path.startDot st = (-1)%Z ->
    Path.end_ st <> (-1)%Z ->
    Path.extnameLoop (re ++ rest) i st =
    Path.extnameLoop rest (i - Z.of_nat (List.length re)) st.
Proof.
  induction re as [|c re IH]; intros rest i st [Hdot Hslash] Hsd Hen.
  - simpl. f_equal. lia.
  - assert (Hc47 : (c =? 47) = false).
    { apply N.eqb_neq. intros ->. apply Hslash. left. reflexivity. }
    assert (Hc46 : (c =? 46) = false).
    { apply N.eqb_neq. intros ->. apply Hdot. left. reflexivity. }
    destruct st as [sd sp en ms pd]. simpl in Hsd, Hen. subst sd.
    simpl app. simpl Path.extnameLoop. rewrite Hc47, Hc46.
    apply Z.eqb_neq in Hen. rewrite Hen. simpl.
    rewrite IH.
    + f_equal. zlia.
    + split; intros H; [apply Hdot | apply Hslash]; right; exact H.
    + reflexivity.
    + simpl. apply Z.eqb_neq. exact Hen.
Qed.

(** After the dot of the extension and a plain character before it, the
    rest of the scan keeps [startDot] and [end], and cannot reach the two
    states that make [extname] answer with the empty string. *)
Lemma extnameLoop_tail (rest : jsstring) :
  forall (i D E pd : Z),
    i = (Z.of_nat (List.length rest) - 1)%Z ->
    D <> (-1)%Z -> E <> (-1)%Z ->
    (i + 2 <= D)%Z ->
    (pd = (-1)%Z \/ (pd = 1%Z /\ (i + 2 < D)%Z)) ->
    forall st',
      st' = Path.extnameLoop rest i
              {| Path.startDot := D; Path.startPart := 0; Path.end_ := E;
                 Path.matchedSlash := false; Path.preDotState := pd |} ->
      Path.startDot st' = D /\ Path.end_ st' = E
      /\ Path.preDotState st' <> 0%Z
      /\ (Path.preDotState st' = 1%Z -> (Path.startPart st' + 1 < D)%Z).
Proof.
  induction rest as [|c rest IH]; intros i D E pd Hi HD HE Hle Hpd st' ->.
  - simpl. simpl in Hi. repeat split; lia.
  - simpl Path.extnameLoop.
    apply Z.eqb_neq in HD, HE.
    destruct (c =? 47).
    + simpl. repeat split; lia.
    + simpl. rewrite HE. simpl. rewrite HD. simpl.
      destruct (c =? 46).
      * destruct (pd =? 1)%Z eqn:Hp; simpl.
        -- apply Z.eqb_eq in Hp. subst pd.
           apply (IH (i - 1)%Z D E 1%Z);
             first [reflexivity | zlia | apply Z.eqb_neq; assumption].
        -- apply (IH (i - 1)%Z D E 1%Z);
             first [reflexivity | zlia | apply Z.eqb_neq; assumption].
      * apply (IH (i - 1)%Z D E (-1)%Z);
          first [reflexivity | zlia | apply Z.eqb_neq; assumption].
Qed.

Lemma plain_rev (s : jsstring) : plain s -> plain (rev s).
Proof.
  intros [H1 H2]. split; intros H; apply in_rev in H; contradiction.
Qed.

(** The scan from the end of the path through a plain extension and its
    dot. *)
Lemma extnameLoop_extension (re rest : jsstring) (n : Z) :
  plain re ->
  (0 <= n)%Z ->
  Path.extnameLoop (re ++ 46 :: rest) (n - 1) Path.scan0 =
  Path.extnameLoop rest (n - 2 - Z.of_nat (List.length re))
    {| Path.startDot := (n - 1 - Z.of_nat (List.length re))%Z;
       Path.startPart := 0; Path.end_ := n;
       Path.matchedSlash := false; Path.preDotState := 0 |}.
Proof.
  intros Hre Hn. destruct re as [|x re].
  - simpl. f_equal; [lia|].
    replace (n - 1 + 1)%Z with n by lia.
    replace (n - 1 - 0)%Z with (n - 1)%Z by lia. reflexivity.
  - destruct Hre as [Hdot Hslash].
    assert (Hx47 : (x =? 47) = false).
    { apply N.eqb_neq. intros ->. apply Hslash. left. reflexivity. }
    assert (Hx46 : (x =? 46) = false).
    { apply N.eqb_neq. intros ->. apply Hdot. left. reflexivity. }
    simpl app. simpl Path.extnameLoop. rewrite Hx47, Hx46. simpl.
    replace (n - 1 + 1)%Z with n by lia.
    rewrite extnameLoop_plain.
    + simpl Path.extnameLoop. simpl.
      assert (Hn1 : (n =? -1)%Z = false) by (apply Z.eqb_neq; lia).
      rewrite Hn1. simpl. f_equal; [zlia|]. f_equal. zlia.
    + split; intros H; [apply Hdot | apply Hslash]; right; exact H.
    + reflexivity.
    + simpl. lia.
Qed.

(** A plain extension after a plain character is what [extname] gives,
    whatever comes before. *)
Lemma extname_plain_extension (pre e : jsstring) (c : char16) :
  (c =? 46) = false -> (c =? 47) = false -> plain e ->
  Path.extname (pre ++ c :: 46 :: e) = 46 :: e.
Proof.
  intros Hc46 Hc47 He. unfold Path.extname.
  set (path := pre ++ c :: 46 :: e).
  assert (Hlen : Z.of_nat (List.length path) =
                 (Z.of_nat (List.length pre) + 2 + Z.of_nat (List.length e))%Z).
  { unfold path. rewrite length_app. zlia. }
  assert (Hrev : rev path = rev e ++ 46 :: c :: rev pre).
  { unfold path. rewrite rev_app_distr. simpl. rewrite <- !app_assoc.
    reflexivity. }
  rewrite Hrev.
  rewrite (extnameLoop_extension (rev e) (c :: rev pre)
             (Z.of_nat (List.length path)) (plain_rev e He)) by lia.
  rewrite length_rev.
  simpl Path.extnameLoop. rewrite Hc47, Hc46. simpl.
  assert (Hn : (Z.of_nat (List.length path) =? -1)%Z = false)
    by (apply Z.eqb_neq; lia).
  assert (Hd : (Z.of_nat (List.length path) - 1 - Z.of_nat (List.length e) =? -1)%Z
               = false) by (apply Z.eqb_neq; lia).
  rewrite Hn. simpl. rewrite Hd. simpl.
  match goal with |- context [Path.extnameLoop (rev pre) ?i ?st0] =>
    set (st' := Path.extnameLoop (rev pre) i st0);
    pose proof (extnameLoop_tail (rev pre) i
                  (Z.of_nat (List.length path) - 1 - Z.of_nat (List.length e))
                  (Z.of_nat (List.length path)) (-1)) as Htail
  end.
  rewrite length_rev in Htail.
  specialize (Htail ltac:(lia) ltac:(lia) ltac:(lia) ltac:(lia)
                (or_introl eq_refl) st' eq_refl).
  destruct Htail as (Hsd & Hen & Hpd & Hpart).
  cbv zeta. rewrite Hsd, Hen, Hd, Hn. simpl orb.
  apply Z.eqb_neq in Hpd. rewrite Hpd. simpl orb.
  assert (Hno : ((Path.preDotState st' =? 1)%Z
                 && (Z.of_nat (List.length path) - 1 - Z.of_nat (List.length e)
                     =? Z.of_nat (List.length path) - 1)%Z
                 && (Z.of_nat (List.length path) - 1 - Z.of_nat (List.length e)
                     =? Path.startPart st' + 1)%Z) = false).
  { destruct (Z.eqb_spec (Path.preDotState st') 1) as [E|E]; [|reflexivity].
    specialize (Hpart E).
    rewrite andb_true_l. apply andb_false_iff. right.
    apply Z.eqb_neq. lia. }
  rewrite Hno.
  replace (Z.to_nat (Z.of_nat (List.length path) - 1 - Z.of_nat (List.length e)))
    with (List.length (pre ++ [c])) by (rewrite length_app; zlia).
  replace (Z.to_nat (Z.of_nat (List.length path)))
    with (List.length (pre ++ [c]) + 1 + List.length e)%nat
    by (rewrite length_app; zlia).
  unfold path.
  replace (pre ++ c :: 46 :: e) with ((pre ++ [c]) ++ 46 :: e ++ [])
    by (rewrite <- app_assoc, app_nil_r; reflexivity).
  apply slice_middle.
Qed.

(** Without a dot before the next slash the scan finds no extension. *)
Lemma extnameLoop_no_dot (nodots : jsstring) :
  forall (rest : jsstring) (i : Z) (st : Path.scan),
    ~ In 46 nodots ->
    Path.startDot st = (-1)%Z ->
    Path.matchedSlash st = false ->
    Path.startDot (Path.extnameLoop (nodots ++ 47 :: rest) i st) = (-1)%Z.
Proof.
  induction nodots as [|c nodots IH]; intros rest i st Hdot Hsd Hms.
  - simpl app. rewrite extnameLoop_slash, Hms. simpl. exact Hsd.
  - simpl app. destruct (c =? 47) eqn:Hc.
    + apply N.eqb_eq in Hc. subst c.
      rewrite extnameLoop_slash, Hms. simpl. exact Hsd.
    + destruct (extnameLoop_char c (nodots ++ 47 :: rest) i st Hc)
        as (st2 & Hrun & _ & Hsd2 & Hms2 & _).
      rewrite Hrun. apply IH.
      * intros H. apply Hdot. right. exact H.
      * rewrite Hsd2.
        assert (Hc46 : (c =? 46) = false).
        { apply N.eqb_neq. intros ->. apply Hdot. left. reflexivity. }
        rewrite Hc46. exact Hsd.
      * rewrite Hms2, Hms. destruct (Path.end_ st =? -1)%Z; reflexivity.
Qed.

Lemma extname_no_dot (dir f : jsstring) (c : char16) :
  ~ In 46 f -> (c =? 46) = false -> (c =? 47) = false ->
  Path.extname (dir ++ 47 :: f ++ [c]) = [].
Proof.
  intros Hf Hc46 Hc47. unfold Path.extname.
  assert (Hrev : rev (dir ++ 47 :: f ++ [c]) = c :: rev f ++ 47 :: rev dir).
  { rewrite rev_app_distr. simpl. rewrite rev_app_distr. simpl.
    rewrite <- !app_assoc. reflexivity. }
  rewrite Hrev.
  destruct (extnameLoop_char c (rev f ++ 47 :: rev dir)
              (Z.of_nat (List.length (dir ++ 47 :: f ++ [c])) - 1)
              Path.scan0 Hc47)
    as (st2 & Hrun & _ & Hsd2 & Hms2 & _).
  rewrite Hrun. cbv zeta.
  rewrite extnameLoop_no_dot.
  - reflexivity.
  - intros H. apply in_rev in H. contradiction.
  - rewrite Hsd2, Hc46. reflexivity.
  - rewrite Hms2. reflexivity.
Qed.

Lemma digits_plain (u : Decimal.uint) : plain (Server.digits u).
Proof.
  induction u as [|u [H1 H2]|u [H1 H2]|u [H1 H2]|u [H1 H2]|u [H1 H2]
                 |u [H1 H2]|u [H1 H2]|u [H1 H2]|u [H1 H2]|u [H1 H2]];
    simpl; split; try tauto;
    intros [H|H]; solve [discriminate | contradiction].
Qed.

(** The part of a stored name between the field name and the extension:
    hyphens and digits. *)
Lemma suffix_plain (now random : N) :
  plain (45 :: Server.numberToString now ++ 45 :: Server.numberToString random).
Proof.
  destruct (digits_plain (N.to_uint now)) as [A1 A2].
  destruct (digits_plain (N.to_uint random)) as [B1 B2].
  unfold Server.numberToString.
  split; intros [H|H]; try discriminate;
    apply in_app_or in H; destruct H as [H|[H|H]];
    solve [discriminate | contradiction].
Qed.

Lemma stored_name_extension (uploadsDir : jsstring) (file : Server.File)
    (now random : N) :
  ~ In 46 (Server.fieldname file) ->
  Path.extname (Server.storedPath uploadsDir (Server.filename file now random)) =
  Path.extname (Server.originalname file).
Proof.
  intros Hfield.
  destruct (suffix_plain now random) as [Hs46 Hs47].
  destruct (@exists_last _
              (45 :: Server.numberToString now ++ 45 :: Server.numberToString random)
              ltac:(discriminate)) as (t & c & Ht).
  assert (Hc46 : (c =? 46) = false).
  { apply N.eqb_neq. intros ->. apply Hs46. rewrite Ht.
    apply in_or_app. right. left. reflexivity. }
  assert (Hc47 : (c =? 47) = false).
  { apply N.eqb_neq. intros ->. apply Hs47. rewrite Ht.
    apply in_or_app. right. left. reflexivity. }
  assert (Ht46 : ~ In 46 (Server.fieldname file ++ t)).
  { intros H. apply in_app_or in H. destruct H as [H|H]; [contradiction|].
    apply Hs46. rewrite Ht. apply in_or_app. left. exact H. }
  assert (Hname : forall ext,
    Server.storedPath uploadsDir
      (Server.fieldname file ++ u16 "-"
       ++ (Server.numberToString now ++ u16 "-" ++ Server.numberToString random)
       ++ ext) =
    (uploadsDir ++ 47 :: Server.fieldname file ++ t) ++ c :: ext).
  { intros ext. unfold Server.storedPath.
    change (u16 "-") with [45].
    transitivity
      (uploadsDir ++ 47 :: Server.fieldname file
       ++ (45 :: Server.numberToString now ++ 45 :: Server.numberToString random)
       ++ ext).
    - reflexivity.
    - rewrite Ht. rewrite <- !app_assoc. simpl. rewrite <- !app_assoc.
      reflexivity. }
  unfold Server.filename. cbv zeta. rewrite Hname.
  destruct (extname_shape (Server.originalname file)) as [He|(e & He & Hplain)];
    rewrite He.
  - rewrite <- app_assoc. simpl app.
    apply (extname_no_dot uploadsDir (Server.fieldname file ++ t) c);
      assumption.
  - apply extname_plain_extension; assumption.
Qed.

(** X12: an upload stored under the name [storage.filename] gives it
    keeps the extension of its original name, for every original name,
    time stamp and random number, when the field name has no dot (the
    route's field is [image]).  So the fetch of the stored file reports
    [application/pdf] exactly when the original name's extension is [.pdf]
    in some letter case, whatever MIME type the upload declared. *)
Theorem stored_upload_keeps_extension :
  forall (uploadsDir : jsstring) (file : Server.File) (now random : N),
    ~ In 46 (Server.fieldname file) ->
    Path.extname (Server.storedPath uploadsDir (Server.filename file now random)) =
      Path.extname (Server.originalname file)
    /\ forall (env : Env) (bytes : list byte) (st : State),
        fs env (Server.storedPath uploadsDir (Server.filename file now random)) =
          Some (RegularFile bytes) ->
        exists r,
          ExtractText.fetchFileAsBase64 env
            (Server.storedPath uploadsDir (Server.filename file now random)) st =
            (Resolved r, st)
          /\ data r = Base64.encode bytes
          /\ (mediaType r = u16 "application/pdf"
              <-> toLowerCase (Path.extname (Server.originalname file)) =
                  u16 ".pdf").
Proof.
  intros uploadsDir file now random Hfield.
  pose proof (stored_name_extension uploadsDir file now random Hfield) as Hext.
  split; [exact Hext|].
  intros env bytes st Hfs.
  rewrite (fetch_local env _ bytes st Hfs).
  eexists. split; [reflexivity|]. split; [reflexivity|].
  simpl mediaType. cbv zeta. rewrite Hext.
  destruct (streq (toLowerCase (Path.extname (Server.originalname file)))
              (u16 ".pdf")) eqn:E.
  - apply streq_eq in E. split; [intros _; exact E | reflexivity].
  - apply streq_neq in E.
    split; [|intros H; contradiction].
    destruct (streq _ (u16 ".png")); [discriminate|].
    destruct (streq _ (u16 ".gif")); [discriminate|].
    destruct (streq _ (u16 ".webp")); discriminate.
Qed.

Lemma stored_upload_keeps_extension_witness :
  Path.extname
    (Server.storedPath (u16 "/app/uploads")
       (Server.filename Sample2.upload 1730000000000 123456789)) =
  Path.extname (Server.originalname Sample2.upload).
Proof.
  apply (proj1 (stored_upload_keeps_extension
                  (u16 "/app/uploads") Sample2.upload
                  1730000000000 123456789
                  ltac:(cbv; intuition discriminate))).
Defined.

(** The stored name of the sample upload, and the type its fetch reports
    although the upload declared [image/png]. *)
Example stored_upload_example :
  Server.fileFilter Sample2.upload = Resolved true
  /\ Server.filename Sample2.upload 1730000000000 123456789 =
     u16 "image-1730000000000-123456789.PDF"
  /\ toLowerCase (Path.extname (Server.originalname Sample2.upload)) = u16 ".pdf".
Proof. repeat split. Qed.
